(** * backupmpps: a shallow embedding of [backupmpps.py]

    The script retrieves missing person posters from a paginated API,
    downloads two assets per poster, compresses them with external tools,
    uploads them to a bucket and removes the local copies.

    The embedding follows the script function by function.  Everything the
    script does to the outside world (HTTP requests, sub-processes, file
    writes, uploads, deletions, log records) is an [event]; the state that is
    threaded through the code is the history of events so far, and the
    outside world is an [Env]: it answers each call as a function of that
    history.  Exceptions are values of [exn]; a computation returns
    [Ok v] or [Raise e] together with the extended history. *)

From Stdlib Require Import Ascii String ZArith NArith Lia.
From stdpp Require Import base list strings gmap pretty.

Local Open Scope Z_scope.

#[local] Set Warnings "-register-all".

(** ** Python strings

    A [string] is a Python [str] whose characters are code points below 256
    (the range of an HTTP header decoded by [requests]); every function below
    is the [str] method of the same name restricted to that range. *)

Module Py.

Definition code (c : ascii) : N := N_of_ascii c.

(** [c.lower()] for one character: A-Z, and the upper case letters of the
    Latin-1 block (0xC0-0xDE without the multiplication sign 0xD7). *)
Definition lower_char (c : ascii) : ascii :=
  let n := code c in
  if ((65 <=? n) && (n <=? 90))%N
     || ((192 <=? n) && (n <=? 222) && negb (n =? 215))%N
  then ascii_of_N (n + 32) else c.

Fixpoint lower (s : string) : string :=
  match s with
  | EmptyString => EmptyString
  | String c s' => String (lower_char c) (lower s')
  end.

(** [c.isspace()]: TAB..CR, FS..US, space, NEL and NBSP. *)
Definition isspace (c : ascii) : bool :=
  let n := code c in
  ((9 <=? n) && (n <=? 13) || (28 <=? n) && (n <=? 32)
   || (n =? 133) || (n =? 160))%N.

Fixpoint lstrip (s : string) : string :=
  match s with
  | EmptyString => EmptyString
  | String c s' => if isspace c then lstrip s' else s
  end.

Fixpoint rstrip (s : string) : string :=
  match s with
  | EmptyString => EmptyString
  | String c s' =>
      match rstrip s' with
      | EmptyString => if isspace c then EmptyString else String c EmptyString
      | r => String c r
      end
  end.

Definition strip (s : string) : string := lstrip (rstrip s).

(** [s.split(sep)] for a one-character separator: never an empty list. *)
Fixpoint split (sep : ascii) (s : string) : list string :=
  match s with
  | EmptyString => [EmptyString]
  | String c s' =>
      if decide (c = sep) then EmptyString :: split sep s'
      else match split sep s' with
           | h :: t => String c h :: t
           | [] => [String c EmptyString]
           end
  end.

(** [needle in hay]. *)
Fixpoint contains (needle hay : string) : bool :=
  String.prefix needle hay
  || match hay with
     | EmptyString => false
     | String _ hay' => contains needle hay'
     end.

(** [s.rfind(c)] for a one-character [c]: the highest index, or -1. *)
Fixpoint rfind (c : ascii) (s : string) : Z :=
  match s with
  | EmptyString => -1
  | String a s' =>
      let r := rfind c s' in
      if 0 <=? r then r + 1
      else if decide (a = c) then 0 else -1
  end.

Fixpoint take (n : nat) (s : string) : string :=
  match n, s with
  | S n', String c s' => String c (take n' s')
  | _, _ => EmptyString
  end.

Fixpoint drop (n : nat) (s : string) : string :=
  match n, s with
  | S n', String _ s' => drop n' s'
  | _, _ => s
  end.

(** [s.rstrip(c)] for a one-character [c]. *)
Fixpoint rstrip_char (c : ascii) (s : string) : string :=
  match s with
  | EmptyString => EmptyString
  | String a s' =>
      match rstrip_char c s' with
      | EmptyString => if decide (a = c) then EmptyString else String a EmptyString
      | r => String a r
      end
  end.

(** [c * n] for a one-character [c]. *)
Fixpoint repeat (c : ascii) (n : nat) : string :=
  match n with
  | O => EmptyString
  | S n' => String c (repeat c n')
  end.

(** [s[:i]] and [s[i:]] for [0 <= i]. *)
Definition slice_to (s : string) (i : Z) : string := take (Z.to_nat i) s.
Definition slice_from (s : string) (i : Z) : string := drop (Z.to_nat i) s.

(** [s[i:i+1]] for [0 <= i]: one character, or the empty string past the
    end. *)
Definition slice1 (s : string) (i : Z) : string :=
  match String.get (Z.to_nat i) s with
  | Some c => String c EmptyString
  | None => EmptyString
  end.

End Py.

(** ** [os.path] (posixpath) *)

Module OsPath.

Definition sep : ascii := "/"%char.
Definition extsep : ascii := "."%char.

(** The [while filenameIndex < dotIndex] loop of [genericpath._splitext]:
    [true] when it reaches its [return p[:dotIndex], p[dotIndex:]], that is
    when some character of the file name before the last dot is not a dot.
    [fuel] bounds the number of iterations. *)
Fixpoint skip_leading_dots (fuel : nat) (p : string)
    (filenameIndex dotIndex : Z) : bool :=
  match fuel with
  | O => false
  | S fuel' =>
      if filenameIndex <? dotIndex then
        if negb (String.eqb (Py.slice1 p filenameIndex) (String extsep EmptyString))
        then true
        else skip_leading_dots fuel' p (filenameIndex + 1) dotIndex
      else false
  end.

Definition splitext (p : string) : string * string :=
  let sepIndex := Py.rfind sep p in
  let dotIndex := Py.rfind extsep p in
  if (sepIndex <? dotIndex)
     && skip_leading_dots (String.length p) p (sepIndex + 1) dotIndex
  then (Py.slice_to p dotIndex, Py.slice_from p dotIndex)
  else (p, EmptyString).

(** [os.path.basename]: everything after the last slash. *)
Definition basename (p : string) : string :=
  Py.slice_from p (Py.rfind sep p + 1).

(** [os.path.dirname]: everything before the last slash, without trailing
    slashes unless it consists of slashes only. *)
Definition dirname (p : string) : string :=
  let i := Py.rfind sep p + 1 in
  let head := Py.slice_to p i in
  if negb (String.eqb head EmptyString)
     && negb (String.eqb head (Py.repeat sep (String.length head)))
  then Py.rstrip_char sep head
  else head.

End OsPath.

(** ** Python values, exceptions, events *)

(** The values the script handles without looking inside them: what
    [res.json()] returns, the attributes of an [Mpp], the arguments of a log
    record.  A JSON object is a [dict] with [str] keys. *)
Inductive pyobj : Type :=
| PyNone
| PyBool (b : bool)
| PyInt (z : Z)
| PyFloat (literal : string)
| PyStr (s : string)
| PyList (l : list pyobj)
| PyDict (d : gmap string pyobj)
| PyDate (isoformat : string)
| PyDateTime (isoformat : string).

(** The exceptions that occur, by the class an [except] clause tests; every
    one of them is a subclass of [Exception].  [msg] is [str(ex)]. *)
Inductive exn : Type :=
| ExtraviadosMxApiException (msg : string)
| ValueError (msg : string)
| TypeError (msg : string)
| KeyError (key : string)
| IndexError (msg : string)
| AttributeError (msg : string)
| CalledProcessError (returncode : Z) (cmd : list string) (output stderr : string)
| TimeoutExpired (cmd : list string)
| SSLError (msg : string)
| HTTPError (status : Z)
| JSONDecodeError (msg : string)
| RequestException (msg : string)
| OSError (msg : string)
| OtherException (cls msg : string).

Inductive result (A : Type) : Type :=
| Ok (a : A)
| Raise (e : exn).
Arguments Ok {A} a.
Arguments Raise {A} e.

(** A [requests.Response]: [json_body] is what [res.json()] returns
    ([None] when the body does not parse), [headers] the header list that
    [res.headers] looks up without regard to case. *)
Record Response : Type := mkResponse {
  status_code : Z;
  res_url : string;
  headers : list (string * string);
  json_body : option pyobj;
  content : string
}.

(** How a sub-process ended, before [subprocess.run] interprets [check]. *)
Inductive proc_outcome : Type :=
| Exited (returncode : Z) (stdout stderr : string)
| TimedOut
| NotRun (e : exn).

Inductive level : Type := INFO | WARNING | ERROR.

(** One interaction with the outside world, with its answer. *)
Inductive event : Type :=
| ELog (lvl : level) (fmt : string) (args : list pyobj) (exc_info : option exn)
| EGet (url : pyobj) (stream verify : bool) (r : result Response)
| ERun (args : list string) (r : proc_outcome)
| EWriteBinary (path : string) (res : Response) (r : option exn)
| EWriteText (path : string) (res : Response) (r : option exn)
| EUpload (filename bucket key : string) (r : option exn)
| ERemove (path : string) (r : option exn)
| EMkdtemp (r : result string)
| ERmtree (path : string) (r : option exn).

Definition history : Type := list event.

(** The outside world and the library functions the script relies on.  Each
    answer may depend on everything that happened before. *)
Record Env : Type := mkEnv {
  requests_get : history -> pyobj -> bool -> bool -> result Response;
  run_process : history -> list string -> proc_outcome;
  write_binary : history -> string -> Response -> option exn;
  write_text : history -> string -> Response -> option exn;
  upload_file : history -> string -> string -> string -> option exn;
  os_remove : history -> string -> option exn;
  mkdtemp : history -> result string;
  rmtree : history -> string -> option exn;
  (** [str(x)] as an f-string computes it, for values that are not [str] *)
  format_obj : pyobj -> string;
  (** [s.upper()] *)
  str_upper : string -> string;
  (** [datetime.datetime.strptime(s, "%Y-%m-%d").date()], [None] for a
      [ValueError] *)
  strptime_date : string -> option string;
  (** [datetime.datetime.fromisoformat(s)] *)
  fromisoformat : string -> option string;
  (** [urllib.parse.quote_plus], as [urlencode] applies it to a value *)
  quote_plus : string -> string
}.

(** ** The monad of the script: history passing with exceptions *)

Definition M (A : Type) : Type := history -> result A * history.

Definition ret {A} (a : A) : M A := fun h => (Ok a, h).
Definition raise {A} (e : exn) : M A := fun h => (Raise e, h).
Definition bind {A B} (m : M A) (k : A -> M B) : M B :=
  fun h => match m h with
           | (Ok a, h') => k a h'
           | (Raise e, h') => (Raise e, h')
           end.
(** [try: m except ...: handler]; a handler re-raises what no clause of the
    [try] statement matches. *)
Definition try_except {A} (m : M A) (handler : exn -> M A) : M A :=
  fun h => match m h with
           | (Ok a, h') => (Ok a, h')
           | (Raise e, h') => handler e h'
           end.
Definition lift {A} (r : result A) : M A := fun h => (r, h).

Notation "'let*' x := m 'in' k" := (bind m (fun x => k))
  (at level 10, x name, m at level 100, k at level 200).

(** Perform a call: ask the environment, record the event. *)
Definition emit (e : event) : M unit := fun h => (Ok tt, h ++ [e]).

Definition of_status (r : option exn) : M unit :=
  match r with
  | None => ret tt
  | Some e => raise e
  end.

(** The same for computations that touch nothing: [result] alone. *)
Definition rbind {A B} (r : result A) (k : A -> result B) : result B :=
  match r with
  | Ok a => k a
  | Raise e => Raise e
  end.
Notation "'let?' x := r 'in' k" := (rbind r (fun x => k))
  (at level 10, x name, r at level 100, k at level 200).

(** [x in l] for a list of strings. *)
Definition str_in (x : string) (l : list string) : bool :=
  existsb (String.eqb x) l.

(** [o[key]] for a string key. *)
Definition getitem (o : pyobj) (key : string) : result pyobj :=
  match o with
  | PyDict d =>
      match d !! key with
      | Some v => Ok v
      | None => Raise (KeyError key)
      end
  | _ => Raise (TypeError "indices must be integers or the object is not subscriptable")
  end.

(** [for x in o]: the elements a comprehension visits. *)
Definition iterate (o : pyobj) : result (list pyobj) :=
  match o with
  | PyList l => Ok l
  | PyDict d => Ok (PyStr <$> (map_to_list d).*1)
  | PyStr s => Ok ((fun c => PyStr (String c EmptyString)) <$> list_ascii_of_string s)
  | _ => Raise (TypeError "object is not iterable")
  end.

Fixpoint mapM {A B} (f : A -> result B) (l : list A) : result (list B) :=
  match l with
  | [] => Ok []
  | x :: l' =>
      let? y := f x in
      let? ys := mapM f l' in
      Ok (y :: ys)
  end.

(** *** The dataclass [Mpp] *)

Module Mpp.

(** The attributes hold whatever the API sent: the annotations of the
    dataclass are not checked when an instance is built. *)
Record t : Type := mk {
  id : pyobj;
  slug : pyobj;
  mp_name : pyobj;
  mp_height : pyobj;
  mp_weight : pyobj;
  mp_physical_build : pyobj;
  mp_complexion : pyobj;
  mp_sex : pyobj;
  mp_dob : pyobj;
  mp_age_when_disappeared : pyobj;
  mp_eyes_description : pyobj;
  mp_hair_description : pyobj;
  mp_outfit_description : pyobj;
  mp_identifying_characteristics : pyobj;
  circumstances_behind_dissapearance : pyobj;
  missing_from : pyobj;
  missing_date : pyobj;
  found : pyobj;
  alert_type : pyobj;
  po_state : pyobj;
  po_post_url : pyobj;
  po_post_publication_date : pyobj;
  po_poster_url : pyobj;
  is_multiple : pyobj;
  updated_at : pyobj;
  created_at : pyobj
}.

Definition fields : list string :=
  ["id"; "slug"; "mp_name"; "mp_height"; "mp_weight"; "mp_physical_build";
   "mp_complexion"; "mp_sex"; "mp_dob"; "mp_age_when_disappeared";
   "mp_eyes_description"; "mp_hair_description"; "mp_outfit_description";
   "mp_identifying_characteristics"; "circumstances_behind_dissapearance";
   "missing_from"; "missing_date"; "found"; "alert_type"; "po_state"; "po_post_url";
   "po_post_publication_date"; "po_poster_url"; "is_multiple"; "updated_at";
   "created_at"].

(** One keyword argument of the generated [__init__]. *)
Definition kwarg (api_dict : gmap string pyobj) (name : string) : result pyobj :=
  match api_dict !! name with
  | Some v => Ok v
  | None => Raise (TypeError ("__init__() missing required argument: '" +:+ name +:+ "'"))
  end.

(** [cls] called with the dict unpacked into keyword arguments: every
    key must be a field and every field a key. *)
Definition init (api_dict : gmap string pyobj) : result t :=
  if negb (forallb (fun k => str_in k fields) (map_to_list api_dict).*1)
  then Raise (TypeError "__init__() got an unexpected keyword argument")
  else
  let? a_id := kwarg api_dict "id" in
  let? a_slug := kwarg api_dict "slug" in
  let? a_mp_name := kwarg api_dict "mp_name" in
  let? a_mp_height := kwarg api_dict "mp_height" in
  let? a_mp_weight := kwarg api_dict "mp_weight" in
  let? a_mp_physical_build := kwarg api_dict "mp_physical_build" in
  let? a_mp_complexion := kwarg api_dict "mp_complexion" in
  let? a_mp_sex := kwarg api_dict "mp_sex" in
  let? a_mp_dob := kwarg api_dict "mp_dob" in
  let? a_mp_age_when_disappeared := kwarg api_dict "mp_age_when_disappeared" in
  let? a_mp_eyes_description := kwarg api_dict "mp_eyes_description" in
  let? a_mp_hair_description := kwarg api_dict "mp_hair_description" in
  let? a_mp_outfit_description := kwarg api_dict "mp_outfit_description" in
  let? a_mp_identifying_characteristics := kwarg api_dict "mp_identifying_characteristics" in
  let? a_circumstances_behind_dissapearance :=
    kwarg api_dict "circumstances_behind_dissapearance" in
  let? a_missing_from := kwarg api_dict "missing_from" in
  let? a_missing_date := kwarg api_dict "missing_date" in
  let? a_found := kwarg api_dict "found" in
  let? a_alert_type := kwarg api_dict "alert_type" in
  let? a_po_state := kwarg api_dict "po_state" in
  let? a_po_post_url := kwarg api_dict "po_post_url" in
  let? a_po_post_publication_date := kwarg api_dict "po_post_publication_date" in
  let? a_po_poster_url := kwarg api_dict "po_poster_url" in
  let? a_is_multiple := kwarg api_dict "is_multiple" in
  let? a_updated_at := kwarg api_dict "updated_at" in
  let? a_created_at := kwarg api_dict "created_at" in
  Ok (mk a_id a_slug a_mp_name a_mp_height a_mp_weight a_mp_physical_build
        a_mp_complexion a_mp_sex a_mp_dob a_mp_age_when_disappeared
        a_mp_eyes_description a_mp_hair_description a_mp_outfit_description
        a_mp_identifying_characteristics a_circumstances_behind_dissapearance
        a_missing_from a_missing_date a_found a_alert_type a_po_state a_po_post_url
        a_po_post_publication_date a_po_poster_url a_is_multiple a_updated_at
        a_created_at).

Section FromApi.

Context (E : Env).

(** [None if raw is None else datetime.datetime.strptime(raw, "%Y-%m-%d").date()] *)
Definition parse_date (raw : pyobj) : result pyobj :=
  match raw with
  | PyNone => Ok PyNone
  | PyStr s =>
      match strptime_date E s with
      | Some d => Ok (PyDate d)
      | None => Raise (ValueError "time data does not match format '%Y-%m-%d'")
      end
  | _ => Raise (TypeError "strptime() argument 1 must be str")
  end.

(** [None if raw is None else datetime.datetime.fromisoformat(raw)] *)
Definition parse_datetime (raw : pyobj) : result pyobj :=
  match raw with
  | PyNone => Ok PyNone
  | PyStr s =>
      match fromisoformat E s with
      | Some d => Ok (PyDateTime d)
      | None => Raise (ValueError "Invalid isoformat string")
      end
  | _ => Raise (TypeError "fromisoformat: argument must be str")
  end.

(** The [try] block: the five subscriptions, a [KeyError] becoming an
    [ExtraviadosMxApiException]. *)
Definition raw_dates (api_dict : pyobj)
  : result (pyobj * pyobj * pyobj * pyobj * pyobj) :=
  match
    (let? raw_mp_dob := getitem api_dict "mp_dob" in
     let? raw_missing_date := getitem api_dict "missing_date" in
     let? raw_po_post_publication_date := getitem api_dict "po_post_publication_date" in
     let? raw_updated_at := getitem api_dict "updated_at" in
     let? raw_created_at := getitem api_dict "created_at" in
     Ok (raw_mp_dob, raw_missing_date, raw_po_post_publication_date,
         raw_updated_at, raw_created_at))
  with
  | Raise (KeyError k) =>
      Raise (ExtraviadosMxApiException
               ("provided dict did not contain the key '" +:+ k +:+ "'"))
  | r => r
  end.

Definition from_api_dict (api_dict : pyobj) : result t :=
  let? raws := raw_dates api_dict in
  let '(raw_mp_dob, raw_missing_date, raw_po_post_publication_date,
        raw_updated_at, raw_created_at) := raws in
  let? mp_dob' := parse_date raw_mp_dob in
  let? missing_date' := parse_date raw_missing_date in
  let? po_post_publication_date' := parse_date raw_po_post_publication_date in
  let? updated_at' := parse_datetime raw_updated_at in
  let? created_at' := parse_datetime raw_created_at in
  let? mpp :=
    match api_dict with
    | PyDict d => init d
    | _ => Raise (TypeError "argument after ** must be a mapping")
    end in
  Ok {|
   id := id mpp;
   slug := slug mpp;
   mp_name := mp_name mpp;
   mp_height := mp_height mpp;
   mp_weight := mp_weight mpp;
   mp_physical_build := mp_physical_build mpp;
   mp_complexion := mp_complexion mpp;
   mp_sex := mp_sex mpp;
   mp_dob := mp_dob';
   mp_age_when_disappeared := mp_age_when_disappeared mpp;
   mp_eyes_description := mp_eyes_description mpp;
   mp_hair_description := mp_hair_description mpp;
   mp_outfit_description := mp_outfit_description mpp;
   mp_identifying_characteristics := mp_identifying_characteristics mpp;
   circumstances_behind_dissapearance := circumstances_behind_dissapearance mpp;
   missing_from := missing_from mpp;
   missing_date := missing_date';
   found := found mpp;
   alert_type := alert_type mpp;
   po_state := po_state mpp;
   po_post_url := po_post_url mpp;
   po_post_publication_date := po_post_publication_date';
   po_poster_url := po_poster_url mpp;
   is_multiple := is_multiple mpp;
   updated_at := updated_at';
   created_at := created_at'
  |}.

End FromApi.

End Mpp.

(** *** The dataclass [RetrieveMppsApiBody] *)

Module RetrieveMppsApiBody.

Record t : Type := mk {
  next : pyobj;
  previous : pyobj;
  count : pyobj;
  results : list Mpp.t
}.

Section FromApi.

Context (E : Env).

Definition raw_fields (api_dict : pyobj) : result (pyobj * pyobj * pyobj * pyobj) :=
  match
    (let? results := getitem api_dict "results" in
     let? next_ := getitem api_dict "next" in
     let? previous := getitem api_dict "previous" in
     let? count := getitem api_dict "count" in
     Ok (results, next_, previous, count))
  with
  | Raise (KeyError k) =>
      Raise (ExtraviadosMxApiException
               ("provided dict did not contain the key '" +:+ k +:+ "'"))
  | r => r
  end.

Definition from_api_dict (api_dict : pyobj) : result t :=
  let? raws := raw_fields api_dict in
  let '(results, next_, previous, count) := raws in
  let? items := iterate results in
  let? results := mapM (Mpp.from_api_dict E) items in
  Ok (mk next_ previous count results).

End FromApi.

End RetrieveMppsApiBody.

(** ** The script *)

Record CompletedProcess : Type := mkCompleted {
  cp_returncode : Z;
  cp_stdout : string;
  cp_stderr : string
}.

Section Script.

Context (E : Env).

(** *** Calls to the outside *)

Definition logging (lvl : level) (fmt : string) (args : list pyobj) : M unit :=
  emit (ELog lvl fmt args None).

(** [logging.exception]: level ERROR with the exception being handled. *)
Definition logging_exception (ex : exn) (fmt : string) (args : list pyobj) : M unit :=
  emit (ELog ERROR fmt args (Some ex)).

Definition requests_get_ (url : pyobj) (stream verify : bool) : M Response :=
  fun h =>
    let r := requests_get E h url stream verify in
    (r, h ++ [EGet url stream verify r]).

(** [subprocess.run(args, check=check, ...)]; [TimedOut] is the answer to a
    call that ran into its [timeout]. *)
Definition subprocess_run (args : list string) (check : bool) : M CompletedProcess :=
  fun h =>
    let o := run_process E h args in
    let h' := h ++ [ERun args o] in
    match o with
    | Exited rc out err =>
        if check && negb (rc =? 0)
        then (Raise (CalledProcessError rc args out err), h')
        else (Ok (mkCompleted rc out err), h')
    | TimedOut => (Raise (TimeoutExpired args), h')
    | NotRun e => (Raise e, h')
    end.

Definition open_wb_copy (path : string) (res : Response) : M unit :=
  fun h =>
    let r := write_binary E h path res in
    of_status r (h ++ [EWriteBinary path res r]).

Definition open_wt_write (path : string) (res : Response) : M unit :=
  fun h =>
    let r := write_text E h path res in
    of_status r (h ++ [EWriteText path res r]).

Definition s3_upload_file (filename bucket key : string) : M unit :=
  fun h =>
    let r := upload_file E h filename bucket key in
    of_status r (h ++ [EUpload filename bucket key r]).

Definition os_remove_ (path : string) : M unit :=
  fun h =>
    let r := os_remove E h path in
    of_status r (h ++ [ERemove path r]).

Definition TemporaryDirectory : M string :=
  fun h => let r := mkdtemp E h in (r, h ++ [EMkdtemp r]).

Definition TemporaryDirectory_cleanup (path : string) : M unit :=
  fun h =>
    let r := rmtree E h path in
    of_status r (h ++ [ERmtree path r]).

(** [f"{x}"]. *)
Definition fmt (x : pyobj) : string :=
  match x with
  | PyStr s => s
  | _ => format_obj E x
  end.

(** [x.upper()] for an attribute that should be a [str]. *)
Definition upper (x : pyobj) : result string :=
  match x with
  | PyStr s => Ok (str_upper E s)
  | _ => Raise (AttributeError "object has no attribute 'upper'")
  end.

(** *** The record fetcher *)

Definition _retrieve_mpps_by_updated_at_date (url : pyobj)
  : M RetrieveMppsApiBody.t :=
  let* res := requests_get_ url false true in
  if negb (status_code res =? 200) then
    raise (ExtraviadosMxApiException
             (res_url res +:+ " returned status " +:+ fmt (PyInt (status_code res))))
  else
    let* body :=
      match json_body res with
      | Some body => ret body
      | None =>
          raise (ExtraviadosMxApiException
                   ("unable to parse JSON returned by " +:+ res_url res))
      end in
    lift (RetrieveMppsApiBody.from_api_dict E body).

(** The [while api_res.next is not None] loop.  [records] is the list
    object that [+=] extends in place; [None] is returned when [fuel]
    iterations did not reach a page without successor. *)
Fixpoint fetch_loop (fuel : nat) (api_res : RetrieveMppsApiBody.t)
    (records : list Mpp.t) (h : history)
  : option (result (list Mpp.t) * history) :=
  match RetrieveMppsApiBody.next api_res with
  | PyNone => Some (Ok records, h)
  | next_url =>
      match fuel with
      | O => None
      | S fuel' =>
          match _retrieve_mpps_by_updated_at_date next_url h with
          | (Ok api_res', h') =>
              fetch_loop fuel' api_res'
                (records ++ RetrieveMppsApiBody.results api_res') h'
          | (Raise e, h') => Some (Raise e, h')
          end
      end
  end.

(** The two dates are given by their [isoformat()]. *)
Definition first_url (updated_at_after updated_at_before : string)
    (extraviadosmx_endpoint_url : option string) : string :=
  let extraviadosmx_endpoint_url :=
    match extraviadosmx_endpoint_url with
    | None => "https://extraviados.mx"
    | Some u => u
    end in
  extraviadosmx_endpoint_url +:+ "/api/v1/mpps/?"
    +:+ "updated_at_after=" +:+ quote_plus E updated_at_after
    +:+ "&updated_at_before=" +:+ quote_plus E updated_at_before.

Definition retrieve_mpps_by_updated_at_date (fuel : nat)
    (updated_at_after updated_at_before : string)
    (extraviadosmx_endpoint_url : option string) (h : history)
  : option (result (list Mpp.t) * history) :=
  let url := first_url updated_at_after updated_at_before
               extraviadosmx_endpoint_url in
  match _retrieve_mpps_by_updated_at_date (PyStr url) h with
  | (Ok api_res, h') =>
      fetch_loop fuel api_res (RetrieveMppsApiBody.results api_res) h'
  | (Raise e, h') => Some (Raise e, h')
  end.

(** *** The asset downloader *)

(** [response.headers.get(key, default)]: the lookup ignores case. *)
Fixpoint headers_get (hs : list (string * string)) (key default : string) : string :=
  match hs with
  | [] => default
  | (k, v) :: hs' =>
      if String.eqb (Py.lower k) (Py.lower key) then v
      else headers_get hs' key default
  end.

(** [res.raise_for_status()]: an [HTTPError] for a 4xx or 5xx status. *)
Definition raise_for_status (res : Response) : M unit :=
  if (400 <=? status_code res) && (status_code res <? 600)
  then raise (HTTPError (status_code res))
  else ret tt.

Definition _save_file (response : Response) (content_type filename : string)
  : M string :=
  let* ext :=
    match Py.split "/" content_type !! 1%nat with
    | Some ext => ret ext
    | None => raise (IndexError "list index out of range")
    end in
  let final_filename := filename +:+ "." +:+ ext in
  let* _ := open_wb_copy final_filename response in
  ret final_filename.

Definition _save_text_file (response : Response) (filename : string) : M string :=
  let final_filename := filename +:+ ".html" in
  let* _ := open_wt_write final_filename response in
  ret final_filename.

(** The [try] statement that opens [download_url]. *)
Definition download_url_get (url : pyobj) : M Response :=
  try_except (requests_get_ url true true)
    (fun ex =>
       match ex with
       | SSLError _ =>
           let* _ := logging WARNING
                       "retrieving %s without SSL cert verification" [url] in
           requests_get_ url true false
       | _ => raise ex
       end).

(** The header value [download_url] dispatches on. *)
Definition declared_type (res : Response) : string :=
  Py.strip (Py.lower (headers_get (headers res) "Content-Type" "")).

(** [download_url] after its [try] statement. *)
Definition download_url_save (res : Response) (filename : string) : M string :=
  let* _ := raise_for_status res in
  let content_type := declared_type res in
  if str_in content_type ["application/pdf"; "image/jpeg"; "image/png"] then
    _save_file res content_type filename
  else if str_in content_type ["text/html; charset=utf-8"] then
    _save_text_file res filename
  else
    raise (ValueError ("Content-Type '" +:+ content_type +:+ "' is not supported")).

Definition download_url (url : pyobj) (filename : string) : M string :=
  let* res := download_url_get url in
  download_url_save res filename.

(** *** The asset compressor *)

Definition gs_args (filename tmp_filename : string) : list string :=
  ["gs"; "-sDEVICE=pdfwrite"; "-dCompatibilityLevel=1.4"; "-dPDFSETTINGS=/screen";
   "-dNOPAUSE"; "-dQUIET"; "-dBATCH"; "-sOutputFile=" +:+ tmp_filename; filename].

Definition mv_args (src dst : string) : list string :=
  ["mv"; "--force"; src; dst].

Definition compress_pdf (filename : string) : M string :=
  let tmp_filename := filename +:+ ".tmp" in
  let* _ := subprocess_run (gs_args filename tmp_filename) true in
  let* _ := subprocess_run (mv_args tmp_filename filename) true in
  ret filename.

Definition _change_extension (filename new_ext : string) : M string :=
  let '(root, _) := OsPath.splitext filename in
  let final_filename := root +:+ new_ext in
  let* _ := subprocess_run (mv_args filename final_filename) false in
  ret final_filename.

Definition compress_png (filename : string) : M string :=
  let args := ["pngcrush"; "-brute"; "-ow"; filename] in
  let* completed_process := subprocess_run args true in
  if Py.contains "Not a PNG file" (cp_stderr completed_process) then
    raise (ValueError "Not a PNG file")
  else
    let '(_, ext) := OsPath.splitext filename in
    if String.eqb ext ".png" then ret filename
    else _change_extension filename ".png".

Definition compress_jpeg (filename : string) : M string :=
  let args := ["jpegoptim"; "-v"; filename] in
  let* _ :=
    try_except (subprocess_run args true)
      (fun ex =>
         match ex with
         | CalledProcessError _ _ output _ =>
             if Py.contains "Not a JPEG file" output
             then raise (ValueError "Not a JPEG file")
             else raise ex
         | _ => raise ex
         end) in
  let '(_, ext) := OsPath.splitext filename in
  if String.eqb ext ".jpeg" then ret filename
  else _change_extension filename ".jpeg".

Definition _compress_file (filename : string) : M string :=
  let '(_, ext) := OsPath.splitext filename in
  let final_filename := filename in
  if String.eqb ext ".pdf" then
    try_except (compress_pdf filename)
      (fun ex =>
         match ex with
         | CalledProcessError _ _ output _ =>
             let* _ := logging ERROR "unable to compress the file %s: %s"
                         [PyStr filename; PyStr output] in
             ret final_filename
         | _ => raise ex
         end)
  else if str_in ext [".jpeg"; ".png"] then
    if String.eqb ext ".jpeg" then
      try_except (compress_jpeg filename)
        (fun ex =>
           match ex with
           | ValueError msg =>
               if Py.contains "Not a JPEG file" msg then
                 try_except
                   (let* final_filename := compress_png filename in
                    let* _ := logging INFO
                      "%s was not a JPEG file, it was a PNG, it was compressed and renamed to %s"
                      [PyStr filename; PyStr final_filename] in
                    ret final_filename)
                   (fun ex' =>
                      let* _ := logging_exception ex'
                                  "unable to compress the file %s" [PyStr filename] in
                      ret final_filename)
               else
                 let* _ := logging_exception ex
                             "unable to compress the file %s" [PyStr filename] in
                 ret final_filename
           | _ =>
               let* _ := logging_exception ex
                           "unable to compress the file %s" [PyStr filename] in
               ret final_filename
           end)
    else if String.eqb ext ".png" then
      try_except (compress_png filename)
        (fun ex =>
           match ex with
           | ValueError msg =>
               if Py.contains "Not a PNG file" msg then
                 try_except
                   (let* final_filename := compress_jpeg filename in
                    let* _ := logging INFO
                      "%s was not a PNG file, it was a JPEG, it was compressed and renamed to %s"
                      [PyStr filename; PyStr final_filename] in
                    ret final_filename)
                   (fun ex' =>
                      let* _ := logging_exception ex'
                                  "unable to compress the file %s" [PyStr filename] in
                      ret final_filename)
               else
                 let* _ := logging_exception ex
                             "unable to compress the file %s" [PyStr filename] in
                 ret final_filename
           | _ =>
               let* _ := logging_exception ex
                           "unable to compress the file %s" [PyStr filename] in
               ret final_filename
           end)
    else ret final_filename
  else ret final_filename.

(** *** The per-asset pipeline and the batch *)

(** [_process_url], one definition per [try] statement.  [s3client] is the
    client of the environment: its [upload_file] is [upload_file E]. *)
Definition download_step (url : pyobj) (filename : string) : M (option string) :=
  try_except
    (let* final_filename := download_url url filename in
     ret (Some final_filename))
    (fun ex =>
       let* _ := logging_exception ex "error while downloading %s" [url] in
       ret None).

Definition compress_step (final_filename : string) : M string :=
  try_except
    (let* _ := logging INFO "trying to compress %s" [PyStr final_filename] in
     _compress_file final_filename)
    (fun ex =>
       let* _ := logging_exception ex "error while compressing %s"
                   [PyStr final_filename] in
       ret final_filename).

Definition upload_step (final_filename bucket_name : string) : M unit :=
  try_except
    (let* _ := logging INFO "uploading %s to bucket %s "
                 [PyStr final_filename; PyStr bucket_name] in
     s3_upload_file final_filename bucket_name (OsPath.basename final_filename))
    (fun ex =>
       logging_exception ex "error while uploading %s to S3 bucket"
         [PyStr final_filename]).

Definition delete_step (final_filename : string) : M unit :=
  try_except
    (let* _ := logging INFO "deleting %s" [PyStr final_filename] in
     os_remove_ final_filename)
    (fun ex =>
       logging_exception ex "error while deleting file %s" [PyStr final_filename]).

Definition _process_url (url : pyobj) (filename bucket_name : string) : M unit :=
  let* _ := logging INFO "downloading %s" [url] in
  let* downloaded := download_step url filename in
  match downloaded with
  | None => ret tt   (* the [return] of the first handler *)
  | Some final_filename =>
      let* final_filename := compress_step final_filename in
      let* _ := upload_step final_filename bucket_name in
      delete_step final_filename
  end.

(** The body of [for i, mpp in enumerate(mpps)], from index [i] on. *)
Fixpoint backup_loop (tmpdirname bucket : string) (total_mpps i : Z)
    (mpps : list Mpp.t) : M unit :=
  match mpps with
  | [] => ret tt
  | mpp :: mpps' =>
      let* _ :=
        try_except
          (let* name := lift (upper (Mpp.mp_name mpp)) in
           let* _ := logging INFO "processing %s" [PyStr name] in
           let post_filename :=
             tmpdirname +:+ "/" +:+ fmt (Mpp.id mpp) +:+ ".po_post_url" in
           let* _ := _process_url (Mpp.po_post_url mpp) post_filename bucket in
           let poster_filename :=
             tmpdirname +:+ "/" +:+ fmt (Mpp.id mpp) +:+ ".po_poster_url" in
           _process_url (Mpp.po_poster_url mpp) poster_filename bucket)
          (fun ex =>
             let* name := lift (upper (Mpp.mp_name mpp)) in
             logging_exception ex
               "an unhandled error happened when processing %s" [PyStr name]) in
      let* _ := logging INFO "PROGRESS [ %s / %s ]" [PyInt (i + 1); PyInt total_mpps] in
      backup_loop tmpdirname bucket total_mpps (i + 1) mpps'
  end.

(** [with tempfile.TemporaryDirectory() as tmpdirname: body]: the
    directory is removed when the block is left, normally or not, and an
    error of the removal replaces the outcome of the block. *)
Definition with_TemporaryDirectory {A} (body : string -> M A) : M A :=
  let* tmpdirname := TemporaryDirectory in
  fun h =>
    match body tmpdirname h with
    | (r, h') =>
        match TemporaryDirectory_cleanup tmpdirname h' with
        | (Ok _, h'') => (r, h'')
        | (Raise e, h'') => (Raise e, h'')
        end
    end.

Definition backup_mpps (mpps : list Mpp.t) (bucket : string) : M unit :=
  let* _ := logging INFO "%d were retrieved, starting the backup"
              [PyInt (Z.of_nat (length mpps))] in
  with_TemporaryDirectory
    (fun tmpdirname =>
       let* _ := logging INFO "created temporary directory %s" [PyStr tmpdirname] in
       let total_mpps := Z.of_nat (length mpps) in
       backup_loop tmpdirname bucket total_mpps 0 mpps).

End Script.

(** ** Reading a history

    The vocabulary of the statements below: what a history shows of the
    requests, the files and the progress of the batch. *)

(** The progress line [PROGRESS [ i / n ]]. *)
Definition progress_entry (e : event) : option (Z * Z) :=
  match e with
  | ELog _ fmt args _ =>
      if String.eqb fmt "PROGRESS [ %s / %s ]" then
        match args with
        | [PyInt i; PyInt n] => Some (i, n)
        | _ => None
        end
      else None
  | _ => None
  end.

(** The first attempt of a download: the streaming, verified [requests.get]. *)
Definition first_get (e : event) : option pyobj :=
  match e with
  | EGet url true true _ => Some url
  | _ => None
  end.

Definition progress_of (h : history) : list (Z * Z) := omap progress_entry h.
Definition downloads_of (h : history) : list pyobj := omap first_get h.

(** An event that is neither a progress line nor the start of a download. *)
Definition quiet (e : event) : Prop := progress_entry e = None /\ first_get e = None.

(** Every [requests.get] of a history: the URL and the [verify] flag. *)
Definition get_attempts (h : history) : list (pyobj * bool) :=
  omap (fun e => match e with
                 | EGet url _ verify _ => Some (url, verify)
                 | _ => None
                 end) h.

(** The URLs of the listing requests of a history. *)
Definition listing_requests (h : history) : list pyobj :=
  omap (fun e => match e with
                 | EGet url false true _ => Some url
                 | _ => None
                 end) h.

(** The files a history wrote. *)
Definition writes_of (h : history) : list string :=
  omap (fun e => match e with
                 | EWriteBinary path _ _ | EWriteText path _ _ => Some path
                 | _ => None
                 end) h.

(** [m] only appends to the history, and only events that satisfy [Q]. *)
Definition steps {A} (m : M A) (Q : event -> Prop) : Prop :=
  forall h, exists t, (m h).2 = h ++ t /\ Forall Q t.

(** The log records of the script that the statements name. *)
Definition downloading (url : pyobj) : event := ELog INFO "downloading %s" [url] None.

Definition trying (filename : string) : event :=
  ELog INFO "trying to compress %s" [PyStr filename] None.

Definition ssl_warning (url : pyobj) : event :=
  ELog WARNING "retrieving %s without SSL cert verification" [url] None.

Definition unable (filename : string) (e : exn) : event :=
  ELog ERROR "unable to compress the file %s" [PyStr filename] (Some e).

(** The record a [try] statement of [_process_url] leaves when its call
    failed. *)
Definition failure_log (fmt : string) (args : list pyobj) (r : option exn) : list event :=
  match r with
  | None => []
  | Some e => [ELog ERROR fmt args (Some e)]
  end.

(** What [download_url] returns once the file is written, or failed to be. *)
Definition saved (path : string) (r : option exn) : result string :=
  match r with
  | None => Ok path
  | Some e => Raise e
  end.

(** A sub-process that did not end with exit status 0. *)
Definition failed (o : proc_outcome) : Prop := forall out err, o <> Exited 0 out err.

(** The two raster formats and the compressor of each. *)
Inductive image_format : Type := Jpeg | Png.

Definition extension (fmt : image_format) : string :=
  match fmt with
  | Jpeg => ".jpeg"
  | Png => ".png"
  end.

Definition sibling (fmt : image_format) : image_format :=
  match fmt with
  | Jpeg => Png
  | Png => Jpeg
  end.

Definition compressor (E : Env) (fmt : image_format) : string -> M string :=
  match fmt with
  | Jpeg => compress_jpeg E
  | Png => compress_png E
  end.

(** What the tool of a format says of a file that is not of that format. *)
Definition mismatch_phrase (fmt : image_format) : string :=
  match fmt with
  | Jpeg => "Not a JPEG file"
  | Png => "Not a PNG file"
  end.

(** The record of a fallback that succeeded, [fmt] being the format the name
    announced. *)
Definition renamed_log (fmt : image_format) (filename final_filename : string) : event :=
  ELog INFO
    match fmt with
    | Jpeg => "%s was not a JPEG file, it was a PNG, it was compressed and renamed to %s"
    | Png => "%s was not a PNG file, it was a JPEG, it was compressed and renamed to %s"
    end
    [PyStr filename; PyStr final_filename] None.

(** A path whose last component has a character that is not a dot. *)
Definition has_stem (r : string) : Prop :=
  exists k, Py.rfind OsPath.sep r + 1 <= k < Z.of_nat (String.length r)
            /\ Py.slice1 r k <> String OsPath.extsep EmptyString.

(** The two assets of a record, in the order the batch takes them. *)
Definition assets (m : Mpp.t) : list pyobj := [Mpp.po_post_url m; Mpp.po_poster_url m].

(** The annotation [mp_name: str] of the dataclass holds of a record. *)
Definition named (m : Mpp.t) : Prop := exists s, Mpp.mp_name m = PyStr s.

(** The progress lines [i+1 / total], ..., [i+n / total]. *)
Definition counter (total i : Z) (n : nat) : list (Z * Z) :=
  (fun k => (i + Z.of_nat k, total)) <$> seq 1 n.

(** The listing request for [url] made in state [h] is answered by [res], a
    200 response whose body parses to [page]. *)
Definition answers (E : Env) (h : history) (url : pyobj) (res : Response)
    (page : RetrieveMppsApiBody.t) : Prop :=
  requests_get E h url false true = Ok res
  /\ status_code res = 200
  /\ exists body, json_body res = Some body
                  /\ RetrieveMppsApiBody.from_api_dict E body = Ok page.

(** [serves E h url pages h']: starting with the request for [url] in state
    [h], the API serves [pages] one after the other, each page but the last
    naming its successor in [next], the last one having a null [next]; [h']
    is the state after the last of these requests. *)
Inductive serves (E : Env)
  : history -> pyobj -> list RetrieveMppsApiBody.t -> history -> Prop :=
| serves_last h url res page :
    answers E h url res page ->
    RetrieveMppsApiBody.next page = PyNone ->
    serves E h url [page] (h ++ [EGet url false true (Ok res)])
| serves_more h url res page pages h' :
    answers E h url res page ->
    RetrieveMppsApiBody.next page <> PyNone ->
    serves E (h ++ [EGet url false true (Ok res)]) (RetrieveMppsApiBody.next page) pages h' ->
    serves E h url (page :: pages) h'.

(** ** Sample environments

    Small worlds on which the script is run below. *)

Definition response_of (content_type : string) : Response :=
  mkResponse 200 "" [("Content-Type", content_type)] None "".

(** A world that answers by the URL and by the command line, and in which
    files can always be written. *)
Definition scripted (get : pyobj -> bool -> result Response)
    (run : list string -> proc_outcome) (up rm : string -> option exn) : Env :=
  {| requests_get := fun _ url _ verify => get url verify;
     run_process := fun _ args => run args;
     write_binary := fun _ _ _ => None;
     write_text := fun _ _ _ => None;
     upload_file := fun _ f _ _ => up f;
     os_remove := fun _ f => rm f;
     mkdtemp := fun _ => Ok "/tmp/tmpq";
     rmtree := fun _ _ => None;
     format_obj := fun x => match x with PyInt z => pretty z | _ => "?" end;
     str_upper := fun s => s;
     strptime_date := Some;
     fromisoformat := Some;
     quote_plus := fun s => s |}.

(** [url == s]. *)
Definition is_url (url : pyobj) (s : string) : bool :=
  match url with
  | PyStr u => String.eqb u s
  | _ => false
  end.

(** The program a command line starts. *)
Definition program (args : list string) : string :=
  match args with
  | prog :: _ => prog
  | [] => ""
  end.

(** Every tool succeeds but [prog], which ends as [o]. *)
Definition tools (prog : string) (o : proc_outcome) : Env :=
  scripted (fun _ _ => Ok (response_of "image/png"))
    (fun args => if String.eqb (program args) prog then o else Exited 0 "" "")
    (fun _ => None) (fun _ => None).

(** A world without failures, in which every URL is a PNG image. *)
Definition env_all_well : Env :=
  scripted (fun _ _ => Ok (response_of "image/png"))
    (fun _ => Exited 0 "" "") (fun _ => None) (fun _ => None).

(** A PNG stored under a [.jpeg] name, and a JPEG under a [.png] name. *)
Definition env_png_named_jpeg : Env :=
  tools "jpegoptim" (Exited 1 "7.jpeg [ERROR] Not a JPEG file: starts with 0x89 0x50" "").

Definition env_jpeg_named_png : Env :=
  tools "pngcrush" (Exited 0 "" "pngcrush: Not a PNG file..").

Definition env_gs_timeout : Env := tools "gs" TimedOut.

Definition env_gs_fails : Env := tools "gs" (Exited 1 "Unrecoverable error" "").

(** A server with a certificate that does not verify. *)
Definition env_bad_certificate : Env :=
  scripted (fun _ verify => if verify then Raise (SSLError "certificate verify failed")
                            else Ok (response_of "image/png"))
    (fun _ => Exited 0 "" "") (fun _ => None) (fun _ => None).

(** A server that declares [text/html] without a charset. *)
Definition env_plain_html : Env :=
  scripted (fun _ _ => Ok (response_of "text/html"))
    (fun _ => Exited 0 "" "") (fun _ => None) (fun _ => None).

(** A bucket that refuses every upload. *)
Definition env_upload_refused : Env :=
  scripted (fun _ _ => Ok (response_of "image/png"))
    (fun _ => Exited 0 "" "") (fun _ => Some (OtherException "ClientError" "AccessDenied"))
    (fun _ => None).

Definition poster (id name post poster : string) : Mpp.t :=
  Mpp.mk (PyStr id) PyNone (PyStr name) PyNone PyNone PyNone PyNone PyNone PyNone PyNone
    PyNone PyNone PyNone PyNone PyNone PyNone PyNone PyNone PyNone PyNone
    (PyStr post) PyNone (PyStr poster) PyNone PyNone PyNone.

Definition three_records : list Mpp.t :=
  [poster "1" "ANA" "http://a/1" "http://a/1.png";
   poster "2" "BEA" "http://a/2" "http://a/2.png";
   poster "3" "CLO" "http://a/3" "http://a/3.png"].

(** The second asset of the first record cannot be downloaded. *)
Definition env_one_download_fails : Env :=
  scripted
    (fun url _ => if is_url url "http://a/1.png"
                  then Raise (RequestException "connection refused")
                  else Ok (response_of "image/png"))
    (fun _ => Exited 0 "" "") (fun _ => None) (fun _ => None).

(** A record as the API sends it. *)
Definition api_record (id name post poster : string) : gmap string pyobj :=
  list_to_map
    [("id", PyStr id); ("slug", PyStr name); ("mp_name", PyStr name);
     ("mp_height", PyInt 160); ("mp_weight", PyNone);
     ("mp_physical_build", PyStr ""); ("mp_complexion", PyStr "");
     ("mp_sex", PyStr "F"); ("mp_dob", PyStr "2000-01-31");
     ("mp_age_when_disappeared", PyInt 22); ("mp_eyes_description", PyStr "");
     ("mp_hair_description", PyStr ""); ("mp_outfit_description", PyStr "");
     ("mp_identifying_characteristics", PyStr "");
     ("circumstances_behind_dissapearance", PyStr ""); ("missing_from", PyStr "");
     ("missing_date", PyNone); ("found", PyBool false); ("alert_type", PyStr "");
     ("po_state", PyStr "MX"); ("po_post_url", PyStr post);
     ("po_post_publication_date", PyNone); ("po_poster_url", PyStr poster);
     ("is_multiple", PyBool false); ("updated_at", PyStr "2022-02-01T10:00:00");
     ("created_at", PyNone)].

Definition api_page (records : list (gmap string pyobj)) (next : pyobj) : pyobj :=
  PyDict (list_to_map [("count", PyInt (Z.of_nat (length records))); ("next", next);
                       ("previous", PyNone); ("results", PyList (PyDict <$> records))]).

Definition listing_response (page : pyobj) : Response :=
  mkResponse 200 "https://extraviados.mx/api/v1/mpps/"
    [("Content-Type", "application/json")] (Some page) "".

Definition listing_env (serve : pyobj -> Response) : Env :=
  scripted (fun url _ => Ok (serve url))
    (fun _ => Exited 0 "" "") (fun _ => None) (fun _ => None).

(** A listing of one page whose only record has no [id]. *)
Definition env_missing_id : Env :=
  listing_env (fun _ =>
    listing_response
      (api_page [delete "id" (api_record "7" "ANA" "http://a/7" "http://a/7.png")] PyNone)).

(** The same with [mp_dob] missing instead. *)
Definition env_missing_dob : Env :=
  listing_env (fun _ =>
    listing_response
      (api_page [delete "mp_dob" (api_record "7" "ANA" "http://a/7" "http://a/7.png")] PyNone)).

(** A listing of two pages, of two records and of one. *)
Definition second_url : string := "https://extraviados.mx/api/v1/mpps/?page=2".

Definition first_page : pyobj :=
  api_page [api_record "1" "ANA" "http://a/1" "http://a/1.png";
            api_record "2" "BEA" "http://a/2" "http://a/2.png"] (PyStr second_url).

Definition second_page : pyobj :=
  api_page [api_record "3" "CLO" "http://a/3" "http://a/3.png"] PyNone.

Definition env_two_pages : Env :=
  listing_env (fun url =>
    if is_url url second_url then listing_response second_page
    else listing_response first_page).

Definition sample_first_url : string :=
  first_url env_two_pages "2022-01-22" "2022-05-31" None.

(** The page object a body parses to (an empty page when it does not). *)
Definition parsed (E : Env) (body : pyobj) : RetrieveMppsApiBody.t :=
  match RetrieveMppsApiBody.from_api_dict E body with
  | Ok page => page
  | Raise _ => RetrieveMppsApiBody.mk PyNone PyNone PyNone []
  end.

(** A file system read off a history: a successful [gs] writes its output
    file, a successful [mv] moves a file, nothing else changes a file. *)
Definition fs_step (fs : gmap string string) (e : event) : gmap string string :=
  match e with
  | ERun args (Exited rc _ _) =>
      if negb (rc =? 0) then fs
      else if String.eqb (program args) "gs" then
        match args !! 7%nat with
        | Some out => <[Py.drop 13 out := "compressed"]> fs
        | None => fs
        end
      else if String.eqb (program args) "mv" then
        match args !! 2%nat, args !! 3%nat with
        | Some src, Some dst =>
            match fs !! src with
            | Some c => <[dst := c]> (delete src fs)
            | None => fs
            end
        | _, _ => fs
        end
      else fs
  | _ => fs
  end.

Definition sample_pdf : string := "/tmp/tmpq/7.po_poster_url.pdf".
Definition sample_jpeg : string := "/tmp/tmpq/7.po_poster_url.jpeg".
Definition sample_png : string := "/tmp/tmpq/7.po_poster_url.png".
Definition sample_html : string := "/tmp/tmpq/7.po_post_url.html".
Definition sample_root : string := "/tmp/tmpq/7.po_poster_url".

Definition sample_files (h : history) (path : string) : option string :=
  foldl fs_step {[sample_pdf := "%PDF-1.7 original"]} h !! path.

(** ** The pipeline as a history

    What the batch leaves in the history, written without exceptions: the
    statements on the batch say that the script leaves exactly this. *)

(** The compression step of [_process_url], read as a function: the name to
    upload and the history after the step. *)
Definition compressed (E : Env) (f : string) (h : history) : string * history :=
  match _compress_file E f (h ++ [trying f]) with
  | (Ok f', h2) => (f', h2)
  | (Raise e, h2) =>
      (f, h2 ++ [ELog ERROR "error while compressing %s" [PyStr f] (Some e)])
  end.

(** The history after the upload step and the deletion step for [f]. *)
Definition stored (E : Env) (f bucket : string) (hc : history) : history :=
  let announce_up := ELog INFO "uploading %s to bucket %s " [PyStr f; PyStr bucket] None in
  let ru := upload_file E (hc ++ [announce_up]) f bucket (OsPath.basename f) in
  let hu := hc ++ [announce_up; EUpload f bucket (OsPath.basename f) ru]
               ++ failure_log "error while uploading %s to S3 bucket" [PyStr f] ru in
  let announce_rm := ELog INFO "deleting %s" [PyStr f] None in
  let rr := os_remove E (hu ++ [announce_rm]) f in
  hu ++ [announce_rm; ERemove f rr]
     ++ failure_log "error while deleting file %s" [PyStr f] rr.

(** The history after one asset: a download that failed leaves the record of
    its failure and nothing else; after a download that succeeded the file is
    compressed, uploaded and deleted, whatever fails on the way. *)
Definition asset_history (E : Env) (url : pyobj) (filename bucket : string)
    (h : history) : history :=
  match download_url E url filename (h ++ [downloading url]) with
  | (Raise e, h1) => h1 ++ [ELog ERROR "error while downloading %s" [url] (Some e)]
  | (Ok f, h1) => let '(f', hc) := compressed E f h1 in stored E f' bucket hc
  end.

(** The history after the records [mpps], the ones before them having
    brought the counter to [i]: for each record its announcement, its post,
    its poster, its progress line. *)
Fixpoint batch_history (E : Env) (d bucket : string) (total i : Z)
    (mpps : list Mpp.t) (h : history) : history :=
  match mpps with
  | [] => h
  | m :: mpps' =>
      let name := match Mpp.mp_name m with PyStr s => str_upper E s | _ => "" end in
      let h0 := h ++ [ELog INFO "processing %s" [PyStr name] None] in
      let h1 := asset_history E (Mpp.po_post_url m)
                  (d +:+ "/" +:+ fmt E (Mpp.id m) +:+ ".po_post_url") bucket h0 in
      let h2 := asset_history E (Mpp.po_poster_url m)
                  (d +:+ "/" +:+ fmt E (Mpp.id m) +:+ ".po_poster_url") bucket h1 in
      batch_history E d bucket total (i + 1) mpps'
        (h2 ++ [ELog INFO "PROGRESS [ %s / %s ]" [PyInt (i + 1); PyInt total] None])
  end.

(** The files whose download was written, the files an upload was attempted
    for, the files a deletion was attempted for. *)
Definition saved_of (h : history) : list string :=
  omap (fun e => match e with
                 | EWriteBinary path _ None | EWriteText path _ None => Some path
                 | _ => None
                 end) h.

Definition uploads_of (h : history) : list string :=
  omap (fun e => match e with
                 | EUpload f _ _ _ => Some f
                 | _ => None
                 end) h.

Definition removes_of (h : history) : list string :=
  omap (fun e => match e with
                 | ERemove f _ => Some f
                 | _ => None
                 end) h.

(** An event that writes, uploads and deletes no file. *)
Definition inert (e : event) : Prop :=
  match e with
  | EWriteBinary _ _ _ | EWriteText _ _ _ | EUpload _ _ _ _ | ERemove _ _ => False
  | _ => True
  end.

(** A record whose [mp_name] is null, between two well-formed ones. *)
Definition nameless_record : Mpp.t :=
  Mpp.mk (PyStr "2") PyNone PyNone PyNone PyNone PyNone PyNone PyNone PyNone PyNone
    PyNone PyNone PyNone PyNone PyNone PyNone PyNone PyNone PyNone PyNone
    (PyStr "http://a/2") PyNone (PyStr "http://a/2.png") PyNone PyNone PyNone.

Definition records_with_null_name : list Mpp.t :=
  [poster "1" "ANA" "http://a/1" "http://a/1.png";
   nameless_record;
   poster "3" "CLO" "http://a/3" "http://a/3.png"].

(** A machine on which no scratch directory can be created. *)
Definition env_no_scratch : Env :=
  {| requests_get := fun _ _ _ _ => Ok (response_of "image/png");
     run_process := fun _ _ => Exited 0 "" "";
     write_binary := fun _ _ _ => None;
     write_text := fun _ _ _ => None;
     upload_file := fun _ _ _ _ => None;
     os_remove := fun _ _ => None;
     mkdtemp := fun _ => Raise (OSError "No usable temporary directory found");
     rmtree := fun _ _ => None;
     format_obj := fun x => match x with PyInt z => pretty z | _ => "?" end;
     str_upper := fun s => s;
     strptime_date := Some;
     fromisoformat := Some;
     quote_plus := fun s => s |}.

(** A server that answers 304 to the download. *)
Definition not_modified : Response :=
  mkResponse 304 "" [("Content-Type", "image/png")] None "".

Definition env_not_modified : Env :=
  scripted (fun _ _ => Ok not_modified)
    (fun _ => Exited 0 "" "") (fun _ => None) (fun _ => None).

(** The records before the batch proper. *)
Definition batch_start (n : nat) : event :=
  ELog INFO "%d were retrieved, starting the backup" [PyInt (Z.of_nat n)] None.

Definition batch_prelude (n : nat) (d : string) : list event :=
  [batch_start n; EMkdtemp (Ok d);
   ELog INFO "created temporary directory %s" [PyStr d] None].

(** ** The model at work *)

Example splitext_jpeg :
  OsPath.splitext "/tmp/ab/7.po_poster_url.jpeg" = ("/tmp/ab/7.po_poster_url", ".jpeg").
Proof. reflexivity. Qed.

Example splitext_hidden : OsPath.splitext "/tmp/.jpeg" = ("/tmp/.jpeg", "").
Proof. reflexivity. Qed.

Example splitext_dir_dot : OsPath.splitext "/tmp.d/file" = ("/tmp.d/file", "").
Proof. reflexivity. Qed.

Example dirname_nested : OsPath.dirname "/tmp/ab/7.po_poster_url.jpeg" = "/tmp/ab".
Proof. reflexivity. Qed.

Example dirname_root : OsPath.dirname "//x" = "//".
Proof. reflexivity. Qed.

Example basename_nested : OsPath.basename "/tmp/ab/7.po_poster_url.jpeg" = "7.po_poster_url.jpeg".
Proof. reflexivity. Qed.

Example split_content_type : Py.split "/" "image/png" !! 1%nat = Some "png".
Proof. reflexivity. Qed.

Example strip_lower : Py.strip (Py.lower "  Image/PNG ") = "image/png".
Proof. reflexivity. Qed.

Example contains_phrase :
  Py.contains "Not a PNG file" "pngcrush: Not a PNG file.." = true.
Proof. reflexivity. Qed.

(** The scenario of three records of which one asset cannot be downloaded:
    six downloads are started and the counter runs to 3/3. *)
Example three_records_progress :
  let h := (backup_mpps env_one_download_fails three_records "bucket" []).2 in
  progress_of h = [(1, 3); (2, 3); (3, 3)]
  /\ downloads_of h = [PyStr "http://a/1"; PyStr "http://a/1.png"; PyStr "http://a/2";
                       PyStr "http://a/2.png"; PyStr "http://a/3"; PyStr "http://a/3.png"].
Proof. vm_compute. split; reflexivity. Qed.

(** A missing [mp_dob] is reported as the API error the script defines. *)
Example missing_dob_is_api_error :
  fst <$> retrieve_mpps_by_updated_at_date env_missing_dob 3 "2022-01-22" "2022-05-31" None []
  = Some (Raise (ExtraviadosMxApiException "provided dict did not contain the key 'mp_dob'")).
Proof. vm_compute. reflexivity. Qed.

(** ** Strings and paths *)

Lemma app_cons a s t : String a s +:+ t = String a (s +:+ t).
Proof. reflexivity. Qed.

Lemma app_empty t : EmptyString +:+ t = t.
Proof. reflexivity. Qed.

Lemma app_empty_r s : s +:+ EmptyString = s.
Proof. induction s as [|a s IH]; rewrite ?app_cons, ?app_empty; congruence. Qed.

Lemma length_app s1 s2 :
  String.length (s1 +:+ s2) = (String.length s1 + String.length s2)%nat.
Proof. induction s1 as [|a s1 IH]; rewrite ?app_cons, ?app_empty; simpl; congruence. Qed.

Lemma rfind_range c s :
  Py.rfind c s = -1 \/ 0 <= Py.rfind c s < Z.of_nat (String.length s).
Proof.
  induction s as [|a s IH]; simpl; [lia|].
  destruct (0 <=? Py.rfind c s) eqn:Hr.
  - apply Z.leb_le in Hr. lia.
  - destruct (decide (a = c)); lia.
Qed.

Lemma rfind_app c s1 s2 :
  Py.rfind c (s1 +:+ s2) =
  if 0 <=? Py.rfind c s2 then Z.of_nat (String.length s1) + Py.rfind c s2
  else Py.rfind c s1.
Proof.
  induction s1 as [|a s1 IH]; rewrite ?app_cons, ?app_empty; simpl.
  - destruct (0 <=? Py.rfind c s2) eqn:Hr; [lia|].
    apply Z.leb_gt in Hr. destruct (rfind_range c s2); lia.
  - rewrite IH. destruct (0 <=? Py.rfind c s2) eqn:Hr.
    + apply Z.leb_le in Hr.
      destruct (0 <=? Z.of_nat (String.length s1) + Py.rfind c s2) eqn:Hr2; [lia|].
      apply Z.leb_gt in Hr2. lia.
    + reflexivity.
Qed.

(** The last occurrence splits the string. *)
Lemma rfind_split c s i :
  Py.rfind c s = i -> 0 <= i ->
  exists pre rest, s = pre +:+ String c rest /\ Z.of_nat (String.length pre) = i
                   /\ Py.rfind c rest = -1.
Proof.
  revert i. induction s as [|a s IH]; simpl; intros i Hi Hpos; [lia|].
  destruct (0 <=? Py.rfind c s) eqn:Hr.
  - apply Z.leb_le in Hr.
    destruct (IH (Py.rfind c s) eq_refl Hr) as (pre & rest & -> & Hlen & Hrest).
    exists (String a pre), rest. rewrite app_cons. simpl. split; [done|]. split; [lia|done].
  - apply Z.leb_gt in Hr. destruct (decide (a = c)) as [->|]; [|lia].
    exists EmptyString, s. rewrite app_empty. simpl. split; [done|]. split; [lia|].
    destruct (rfind_range c s); lia.
Qed.

Lemma take_drop n s : Py.take n s +:+ Py.drop n s = s.
Proof.
  revert s. induction n as [|n IH]; intros [|a s]; simpl; rewrite ?app_cons, ?app_empty;
    try done.
  by rewrite IH.
Qed.

Lemma take_app_length s1 s2 : Py.take (String.length s1) (s1 +:+ s2) = s1.
Proof.
  induction s1 as [|a s1 IH]; rewrite ?app_cons, ?app_empty; simpl.
  - by destruct s2.
  - by rewrite IH.
Qed.

Lemma drop_app_length s1 s2 : Py.drop (String.length s1) (s1 +:+ s2) = s2.
Proof. induction s1 as [|a s1 IH]; rewrite ?app_cons, ?app_empty; simpl; done. Qed.

Lemma take_app_le n s1 s2 :
  (n <= String.length s1)%nat -> Py.take n (s1 +:+ s2) = Py.take n s1.
Proof.
  revert s1. induction n as [|n IH]; intros [|a s1] Hn; rewrite ?app_cons, ?app_empty;
    simpl in *; try done; try lia.
  rewrite IH; [done|lia].
Qed.

Lemma slice1_app_l s1 s2 k :
  0 <= k < Z.of_nat (String.length s1) -> Py.slice1 (s1 +:+ s2) k = Py.slice1 s1 k.
Proof.
  intros Hk. unfold Py.slice1.
  rewrite <- (String.append_correct1 s1 s2) by lia. done.
Qed.

(** The loop of [splitext] answers [true] exactly when it meets, in the
    range it scans, a character that is not a dot. *)
Lemma skip_leading_dots_true fuel p a b :
  OsPath.skip_leading_dots fuel p a b = true ->
  exists k, a <= k < b /\ Py.slice1 p k <> String OsPath.extsep EmptyString.
Proof.
  revert a. induction fuel as [|fuel IH]; intros a; simpl; [done|].
  destruct (a <? b) eqn:Hab; [|done]. apply Z.ltb_lt in Hab.
  destruct (String.eqb_spec (Py.slice1 p a) (String OsPath.extsep EmptyString)) as [He|He];
    simpl.
  - intros H. destruct (IH _ H) as (k & Hk & Hne). exists k. split; [lia|done].
  - intros _. exists a. split; [lia|done].
Qed.

Lemma skip_leading_dots_intro fuel p a b k :
  a <= k < b -> k < a + Z.of_nat fuel ->
  Py.slice1 p k <> String OsPath.extsep EmptyString ->
  OsPath.skip_leading_dots fuel p a b = true.
Proof.
  revert a. induction fuel as [|fuel IH]; intros a Hk Hfuel Hne; simpl; [lia|].
  destruct (a <? b) eqn:Hab; [|apply Z.ltb_ge in Hab; lia].
  destruct (String.eqb_spec (Py.slice1 p a) (String OsPath.extsep EmptyString)) as [He|He];
    simpl; [|done].
  apply IH; [|lia|done].
  destruct (decide (k = a)) as [->|]; [done|lia].
Qed.

(** A suffix without dot and slash, put after a dot behind a path with a
    stem, is the extension. *)
Lemma splitext_intro r x :
  Py.rfind OsPath.extsep x = -1 -> Py.rfind OsPath.sep x = -1 -> has_stem r ->
  OsPath.splitext (r +:+ String OsPath.extsep x) = (r, String OsPath.extsep x).
Proof.
  intros Hdot Hsep (k & Hk & Hne). unfold OsPath.splitext.
  assert (Hd : Py.rfind OsPath.extsep (r +:+ String OsPath.extsep x)
               = Z.of_nat (String.length r)).
  { rewrite rfind_app. simpl. rewrite Hdot. simpl.
    destruct (decide (OsPath.extsep = OsPath.extsep)); [simpl; lia|done]. }
  assert (Hs : Py.rfind OsPath.sep (r +:+ String OsPath.extsep x) = Py.rfind OsPath.sep r).
  { rewrite rfind_app. simpl. rewrite Hsep. simpl.
    by destruct (decide (OsPath.extsep = OsPath.sep)). }
  rewrite Hd, Hs.
  assert (Hlt : (Py.rfind OsPath.sep r <? Z.of_nat (String.length r)) = true).
  { apply Z.ltb_lt. destruct (rfind_range OsPath.sep r); lia. }
  rewrite Hlt. simpl.
  rewrite (skip_leading_dots_intro _ _ _ _ k).
  - unfold Py.slice_to, Py.slice_from. rewrite Nat2Z.id.
    by rewrite take_app_length, drop_app_length.
  - lia.
  - rewrite length_app. simpl. destruct (rfind_range OsPath.sep r); lia.
  - rewrite slice1_app_l; [done|]. destruct (rfind_range OsPath.sep r); lia.
Qed.

(** A non-empty extension starts at the last dot, has no slash, and leaves a
    root with a stem. *)
Lemma splitext_inv p r e :
  OsPath.splitext p = (r, e) -> e <> EmptyString ->
  exists x, e = String OsPath.extsep x /\ p = r +:+ e
            /\ Py.rfind OsPath.extsep x = -1 /\ Py.rfind OsPath.sep x = -1
            /\ has_stem r.
Proof.
  unfold OsPath.splitext. intros H Hne.
  destruct (Py.rfind OsPath.sep p <? Py.rfind OsPath.extsep p) eqn:Hlt; simpl in H;
    [|by injection H as <- <-].
  destruct (OsPath.skip_leading_dots _ _ _ _) eqn:Hskip; [|by injection H as <- <-].
  apply Z.ltb_lt in Hlt.
  assert (Hpos : 0 <= Py.rfind OsPath.extsep p) by (destruct (rfind_range OsPath.sep p); lia).
  destruct (rfind_split _ _ _ eq_refl Hpos) as (pre & rest & Hp & Hlen & Hrest).
  unfold Py.slice_to, Py.slice_from in H.
  rewrite <- Hlen in H, Hlt, Hskip. clear Hlen Hpos. subst p.
  rewrite Nat2Z.id, take_app_length, drop_app_length in H.
  injection H as <- <-.
  rewrite rfind_app in Hlt, Hskip.
  destruct (0 <=? Py.rfind OsPath.sep (String OsPath.extsep rest)) eqn:Hs.
  { apply Z.leb_le in Hs. lia. }
  apply Z.leb_gt in Hs.
  assert (Hs' : Py.rfind OsPath.sep rest = -1).
  { simpl in Hs. destruct (0 <=? Py.rfind OsPath.sep rest) eqn:Hs2.
    - apply Z.leb_le in Hs2. lia.
    - apply Z.leb_gt in Hs2. destruct (rfind_range OsPath.sep rest); lia. }
  exists rest. do 4 (split; [done|]).
  apply skip_leading_dots_true in Hskip as (k & Hk & Hnd).
  exists k. split; [lia|].
  rewrite slice1_app_l in Hnd; [done|].
  destruct (rfind_range OsPath.sep pre); lia.
Qed.

Lemma splitext_app p r e : OsPath.splitext p = (r, e) -> p = r +:+ e.
Proof.
  unfold OsPath.splitext. destruct (_ && _); intros H; injection H as <- <-.
  - unfold Py.slice_to, Py.slice_from. by rewrite take_drop.
  - by rewrite app_empty_r.
Qed.

(** Changing a non-empty extension keeps the root. *)
Lemma splitext_change p r e x :
  OsPath.splitext p = (r, e) -> e <> EmptyString ->
  Py.rfind OsPath.extsep x = -1 -> Py.rfind OsPath.sep x = -1 ->
  OsPath.splitext (r +:+ String OsPath.extsep x) = (r, String OsPath.extsep x).
Proof.
  intros H Hne Hd Hs. destruct (splitext_inv _ _ _ H Hne) as (? & _ & _ & _ & _ & Hstem).
  by apply splitext_intro.
Qed.

Lemma dirname_app r x :
  Py.rfind OsPath.sep x = -1 -> OsPath.dirname (r +:+ x) = OsPath.dirname r.
Proof.
  intros Hx. unfold OsPath.dirname. rewrite rfind_app, Hx. simpl.
  unfold Py.slice_to. rewrite take_app_le; [done|].
  destruct (rfind_range OsPath.sep r); lia.
Qed.

(** The root and the directory of a name are those of its root followed by
    the extension of either raster format. *)
Lemma root_of_sibling p r e fmt :
  OsPath.splitext p = (r, e) -> e <> EmptyString ->
  OsPath.splitext (r +:+ extension fmt) = (r, extension fmt)
  /\ OsPath.dirname (r +:+ extension fmt) = OsPath.dirname p.
Proof.
  intros Hs Hne.
  destruct (splitext_inv _ _ _ Hs Hne) as (x & -> & -> & _ & Hsep & _).
  assert (Hsep' : Py.rfind OsPath.sep (String OsPath.extsep x) = -1).
  { simpl. rewrite Hsep. simpl. by destruct (decide (OsPath.extsep = OsPath.sep)). }
  split.
  - destruct fmt.
    + by apply (splitext_change _ _ _ "jpeg" Hs).
    + by apply (splitext_change _ _ _ "png" Hs).
  - rewrite (dirname_app r (String OsPath.extsep x)) by done.
    by destruct fmt; apply dirname_app.
Qed.

(** ** Running the monad *)

Section MonadLemmas.

Context {A B : Type}.

Lemma bind_ok (m : M A) (k : A -> M B) h a h' :
  m h = (Ok a, h') -> bind m k h = k a h'.
Proof. unfold bind. by intros ->. Qed.

Lemma bind_raise (m : M A) (k : A -> M B) h e h' :
  m h = (Raise e, h') -> bind m k h = (Raise e, h').
Proof. unfold bind. by intros ->. Qed.

Lemma try_ok (m : M A) handler h a h' :
  m h = (Ok a, h') -> try_except m handler h = (Ok a, h').
Proof. unfold try_except. by intros ->. Qed.

Lemma try_raise (m : M A) handler h e h' :
  m h = (Raise e, h') -> try_except m handler h = handler e h'.
Proof. unfold try_except. by intros ->. Qed.

End MonadLemmas.

Lemma app_snoc {X} (l : list X) a b : (l ++ [a]) ++ b = l ++ a :: b.
Proof. by rewrite <- app_assoc. Qed.

Section Steps.

Context {A B : Type} (Q : event -> Prop).

Lemma steps_ret (a : A) : steps (ret a) Q.
Proof. intros h. exists []. by rewrite app_nil_r. Qed.

Lemma steps_raise e : steps (@raise A e) Q.
Proof. intros h. exists []. by rewrite app_nil_r. Qed.

Lemma steps_bind (m : M A) (k : A -> M B) :
  steps m Q -> (forall a, steps (k a) Q) -> steps (bind m k) Q.
Proof.
  intros Hm Hk h. destruct (Hm h) as (t & Heq & Ht). unfold bind.
  destruct (m h) as [[a|e] h1]; simpl in Heq; subst h1.
  - destruct (Hk a (h ++ t)) as (t2 & Heq2 & Ht2).
    exists (t ++ t2). rewrite Heq2, app_assoc. split; [done|]. by apply Forall_app.
  - by exists t.
Qed.

Lemma steps_try (m : M A) handler :
  steps m Q -> (forall e, steps (handler e) Q) -> steps (try_except m handler) Q.
Proof.
  intros Hm Hk h. destruct (Hm h) as (t & Heq & Ht). unfold try_except.
  destruct (m h) as [[a|e] h1]; simpl in Heq; subst h1.
  - by exists t.
  - destruct (Hk e (h ++ t)) as (t2 & Heq2 & Ht2).
    exists (t ++ t2). rewrite Heq2, app_assoc. split; [done|]. by apply Forall_app.
Qed.

Lemma steps_emit e : Q e -> steps (emit e) Q.
Proof. intros He h. exists [e]. split; [done|]. by constructor. Qed.

End Steps.

(** ** Histories *)

Lemma quiet_log lvl fmt args exc :
  String.eqb fmt "PROGRESS [ %s / %s ]" = false -> quiet (ELog lvl fmt args exc).
Proof. intros H. split; [|done]. simpl. by rewrite H. Qed.

Lemma quiet_progress t : Forall quiet t -> progress_of t = [].
Proof.
  induction 1 as [|e t [Hp _] _ IH]; [done|].
  unfold progress_of in *. simpl. by rewrite Hp.
Qed.

Lemma quiet_downloads t : Forall quiet t -> downloads_of t = [].
Proof.
  induction 1 as [|e t [_ Hg] _ IH]; [done|].
  unfold downloads_of in *. simpl. by rewrite Hg.
Qed.

Lemma progress_of_app a b : progress_of (a ++ b) = progress_of a ++ progress_of b.
Proof. apply omap_app. Qed.

Lemma downloads_of_app a b : downloads_of (a ++ b) = downloads_of a ++ downloads_of b.
Proof. apply omap_app. Qed.

Lemma get_attempts_app a b : get_attempts (a ++ b) = get_attempts a ++ get_attempts b.
Proof. apply omap_app. Qed.

Lemma downloads_of_cons e t :
  downloads_of (e :: t) = option_list (first_get e) ++ downloads_of t.
Proof. unfold downloads_of. simpl. by destruct (first_get e). Qed.

Lemma progress_of_cons e t :
  progress_of (e :: t) = option_list (progress_entry e) ++ progress_of t.
Proof. unfold progress_of. simpl. by destruct (progress_entry e). Qed.

Ltac split_history :=
  repeat first [ rewrite downloads_of_app | rewrite progress_of_app
               | rewrite downloads_of_cons | rewrite progress_of_cons ].

Lemma counter_S total i n :
  counter total i (S n) = (i + 1, total) :: counter total (i + 1) n.
Proof.
  unfold counter. simpl. f_equal. rewrite <- fmap_S_seq, <- list_fmap_compose.
  apply list_fmap_ext. intros _ k _. simpl. f_equal. lia.
Qed.

Lemma counter_last total n :
  n <> 0%nat -> last (counter total 0 n) = Some (Z.of_nat n, total).
Proof.
  intros Hn. destruct n as [|n]; [done|]. unfold counter.
  rewrite seq_S, fmap_app. cbn [fmap list_fmap]. rewrite last_snoc. do 2 f_equal.
Qed.

(** ** The compressor *)

Section Compressor.

Context (E : Env).

Lemma compress_png_ok filename h f h' r e :
  OsPath.splitext filename = (r, e) ->
  compress_png E filename h = (Ok f, h') ->
  f = if String.eqb e ".png" then filename else r +:+ ".png".
Proof.
  intros Hs. unfold compress_png, bind.
  destruct (subprocess_run E _ true h) as [[cp|?] h1]; [|done].
  destruct (Py.contains _ _); [done|]. rewrite Hs.
  destruct (String.eqb e ".png"); [by intros [= <- <-]|].
  unfold _change_extension. rewrite Hs. unfold bind.
  destruct (subprocess_run E _ false h1) as [[?|?] ?]; [|done].
  by intros [= <- <-].
Qed.

Lemma compress_jpeg_ok filename h f h' r e :
  OsPath.splitext filename = (r, e) ->
  compress_jpeg E filename h = (Ok f, h') ->
  f = if String.eqb e ".jpeg" then filename else r +:+ ".jpeg".
Proof.
  intros Hs. unfold compress_jpeg, bind.
  destruct (try_except _ _ h) as [[cp|?] h1]; [|done].
  rewrite Hs.
  destruct (String.eqb e ".jpeg"); [by intros [= <- <-]|].
  unfold _change_extension. rewrite Hs. unfold bind.
  destruct (subprocess_run E _ false h1) as [[?|?] ?]; [|done].
  by intros [= <- <-].
Qed.

(** A compressor that returns gives the name its own extension. *)
Lemma compressor_ok fmt filename h f h' r e :
  OsPath.splitext filename = (r, e) ->
  compressor E fmt filename h = (Ok f, h') ->
  f = if String.eqb e (extension fmt) then filename else r +:+ extension fmt.
Proof. destruct fmt; [apply compress_jpeg_ok|apply compress_png_ok]. Qed.

Lemma compress_pdf_ok filename h f h' :
  compress_pdf E filename h = (Ok f, h') -> f = filename.
Proof.
  unfold compress_pdf, bind.
  destruct (subprocess_run E _ true h) as [[?|?] h1]; [|done].
  destruct (subprocess_run E _ true h1) as [[?|?] h2]; [|done].
  by intros [= <- <-].
Qed.

(** How the JPEG tool and the PNG tool report a file of another format. *)
Lemma compress_jpeg_reports_mismatch filename h rc out err :
  run_process E h ["jpegoptim"; "-v"; filename] = Exited rc out err ->
  rc <> 0 -> Py.contains "Not a JPEG file" out = true ->
  compress_jpeg E filename h
  = (Raise (ValueError "Not a JPEG file"),
     h ++ [ERun ["jpegoptim"; "-v"; filename] (Exited rc out err)]).
Proof.
  intros Hrun Hrc Hout. unfold compress_jpeg, bind, try_except, subprocess_run.
  rewrite Hrun. destruct (Z.eqb_spec rc 0) as [?|_]; [done|]. simpl. by rewrite Hout.
Qed.

Lemma compress_png_reports_mismatch filename h out err :
  run_process E h ["pngcrush"; "-brute"; "-ow"; filename] = Exited 0 out err ->
  Py.contains "Not a PNG file" err = true ->
  compress_png E filename h
  = (Raise (ValueError "Not a PNG file"),
     h ++ [ERun ["pngcrush"; "-brute"; "-ow"; filename] (Exited 0 out err)]).
Proof.
  intros Hrun Herr. unfold compress_png, bind, subprocess_run.
  rewrite Hrun. simpl. by rewrite Herr.
Qed.

(** The three branches of [_compress_file], by the outcome of the
    compressor the extension selects. *)
Lemma compress_file_image fmt filename r h :
  OsPath.splitext filename = (r, extension fmt) ->
  _compress_file E filename h =
    match compressor E fmt filename h with
    | (Ok f, h1) => (Ok f, h1)
    | (Raise (ValueError msg), h1) =>
        if Py.contains (mismatch_phrase fmt) msg then
          match compressor E (sibling fmt) filename h1 with
          | (Ok f, h2) => (Ok f, h2 ++ [renamed_log fmt filename f])
          | (Raise e', h2) => (Ok filename, h2 ++ [unable filename e'])
          end
        else (Ok filename, h1 ++ [unable filename (ValueError msg)])
    | (Raise e, h1) => (Ok filename, h1 ++ [unable filename e])
    end.
Proof.
  intros Hs. unfold _compress_file. rewrite Hs.
  destruct fmt; simpl; unfold try_except at 1.
  - destruct (compress_jpeg E filename h) as [[f|e] h1]; [done|].
    destruct e; try done.
    destruct (Py.contains "Not a JPEG file" msg); [|done].
    unfold try_except, bind. by destruct (compress_png E filename h1) as [[f|e'] h2].
  - destruct (compress_png E filename h) as [[f|e] h1]; [done|].
    destruct e; try done.
    destruct (Py.contains "Not a PNG file" msg); [|done].
    unfold try_except, bind. by destruct (compress_jpeg E filename h1) as [[f|e'] h2].
Qed.

Lemma compress_file_pdf filename r h :
  OsPath.splitext filename = (r, ".pdf") ->
  _compress_file E filename h =
    match compress_pdf E filename h with
    | (Ok f, h1) => (Ok f, h1)
    | (Raise (CalledProcessError rc cmd output err), h1) =>
        (Ok filename, h1 ++ [ELog ERROR "unable to compress the file %s: %s"
                               [PyStr filename; PyStr output] None])
    | (Raise e, h1) => (Raise e, h1)
    end.
Proof.
  intros Hs. unfold _compress_file. rewrite Hs. simpl.
  unfold try_except at 1.
  destruct (compress_pdf E filename h) as [[f|e] h1]; [done|].
  by destruct e.
Qed.

Lemma compress_file_passthrough filename h :
  str_in (OsPath.splitext filename).2 [".pdf"; ".jpeg"; ".png"] = false ->
  _compress_file E filename h = (Ok filename, h).
Proof.
  intros Hext. unfold _compress_file. destruct (OsPath.splitext filename) as [r e].
  unfold str_in in *. cbn [existsb snd] in *.
  apply orb_false_iff in Hext as [Hpdf Hext].
  apply orb_false_iff in Hext as [Hjpeg Hext].
  apply orb_false_iff in Hext as [Hpng _].
  by rewrite Hpdf, Hjpeg, Hpng.
Qed.

(** A failure of [compress_pdf] is the failure of [gs], or of the [mv] that
    follows a successful [gs]; nothing runs after the failed command. *)
Lemma compress_pdf_failure filename h e h1 :
  compress_pdf E filename h = (Raise e, h1) ->
  let gs := gs_args filename (filename +:+ ".tmp") in
  let mv := mv_args (filename +:+ ".tmp") filename in
  (exists o, failed o /\ h1 = h ++ [ERun gs o])
  \/ (exists out err o, failed o /\ h1 = h ++ [ERun gs (Exited 0 out err); ERun mv o]).
Proof.
  intros Hrun gs mv. unfold compress_pdf, bind, subprocess_run in Hrun.
  fold gs mv in Hrun.
  destruct (run_process E h gs) as [rc out err| |e1] eqn:Hgs.
  - destruct (Z.eqb_spec rc 0) as [->|Hrc]; simpl in Hrun.
    + right.
      destruct (run_process E (h ++ [ERun gs (Exited 0 out err)]) mv)
        as [rc2 out2 err2| |e2] eqn:Hmv.
      * destruct (Z.eqb_spec rc2 0) as [->|Hrc2]; simpl in Hrun; [done|].
        injection Hrun as <- <-. eexists out, err, _. split; [|by rewrite app_snoc].
        intros ??; congruence.
      * injection Hrun as <- <-. eexists out, err, _. split; [|by rewrite app_snoc]. done.
      * injection Hrun as <- <-. eexists out, err, _. split; [|by rewrite app_snoc]. done.
    + left. injection Hrun as <- <-. eexists. split; [|done]. intros ??; congruence.
  - left. injection Hrun as <- <-. eexists. split; [|done]. done.
  - left. injection Hrun as <- <-. eexists. split; [|done]. done.
Qed.

(** The compressor runs tools and writes log records, nothing else. *)
Lemma steps_subprocess_run args check : steps (subprocess_run E args check) quiet.
Proof.
  intros h. exists [ERun args (run_process E h args)]. unfold subprocess_run.
  split; [|by repeat constructor].
  destruct (run_process E h args); [|done..]. by destruct (_ && _).
Qed.

Lemma steps_change_extension f x : steps (_change_extension E f x) quiet.
Proof.
  unfold _change_extension. destruct (OsPath.splitext f).
  apply steps_bind; [apply steps_subprocess_run|intros; apply steps_ret].
Qed.

Lemma steps_compress_png f : steps (compress_png E f) quiet.
Proof.
  unfold compress_png. apply steps_bind; [apply steps_subprocess_run|intros cp].
  destruct (Py.contains _ _); [apply steps_raise|].
  destruct (OsPath.splitext f). destruct (String.eqb _ _); [apply steps_ret|].
  apply steps_change_extension.
Qed.

Lemma steps_compress_jpeg f : steps (compress_jpeg E f) quiet.
Proof.
  unfold compress_jpeg. apply steps_bind.
  - apply steps_try; [apply steps_subprocess_run|].
    intros []; try apply steps_raise. destruct (Py.contains _ _); apply steps_raise.
  - intros _. destruct (OsPath.splitext f). destruct (String.eqb _ _); [apply steps_ret|].
    apply steps_change_extension.
Qed.

Lemma steps_compress_pdf f : steps (compress_pdf E f) quiet.
Proof.
  unfold compress_pdf. repeat (apply steps_bind; [apply steps_subprocess_run|intros _]).
  apply steps_ret.
Qed.

Local Ltac log_quiet :=
  first [ apply steps_ret
        | apply steps_emit; by apply quiet_log
        | apply steps_bind; [apply steps_emit; by apply quiet_log|intros; apply steps_ret] ].

Lemma steps_compress_file f : steps (_compress_file E f) quiet.
Proof.
  unfold _compress_file. destruct (OsPath.splitext f) as [r e].
  destruct (String.eqb e ".pdf").
  { apply steps_try; [apply steps_compress_pdf|]. intros []; try apply steps_raise.
    unfold logging. log_quiet. }
  destruct (str_in e _); [|apply steps_ret].
  destruct (String.eqb e ".jpeg").
  { apply steps_try; [apply steps_compress_jpeg|]. unfold logging, logging_exception.
    intros []; try log_quiet.
    destruct (Py.contains _ _); [|log_quiet].
    apply steps_try; [|intros; log_quiet].
    apply steps_bind; [apply steps_compress_png|intros; log_quiet]. }
  destruct (String.eqb e ".png"); [|apply steps_ret].
  apply steps_try; [apply steps_compress_png|]. unfold logging, logging_exception.
  intros []; try log_quiet.
  destruct (Py.contains _ _); [|log_quiet].
  apply steps_try; [|intros; log_quiet].
  apply steps_bind; [apply steps_compress_jpeg|intros; log_quiet].
Qed.

End Compressor.

(** ** The downloader *)

Lemma ssl_or_not e : (exists msg, e = SSLError msg) \/ (forall msg, e <> SSLError msg).
Proof. destruct e; eauto. Qed.

Lemma not_error_status res :
  ~ 400 <= status_code res < 600 ->
  (400 <=? status_code res) && (status_code res <? 600) = false.
Proof.
  intros Hst. apply andb_false_iff.
  destruct (Z.leb_spec 400 (status_code res)); [right|by left].
  apply Z.ltb_ge. lia.
Qed.

Section Download.

Context (E : Env).

Lemma download_url_get_ok url h res :
  requests_get E h url true true = Ok res ->
  download_url_get E url h = (Ok res, h ++ [EGet url true true (Ok res)]).
Proof.
  intros H. unfold download_url_get, try_except, requests_get_. by rewrite H.
Qed.

Lemma download_url_get_ssl url h msg :
  requests_get E h url true true = Raise (SSLError msg) ->
  let h1 := h ++ [EGet url true true (Raise (SSLError msg)); ssl_warning url] in
  let r2 := requests_get E h1 url true false in
  download_url_get E url h = (r2, h1 ++ [EGet url true false r2]).
Proof.
  intros H. unfold download_url_get, try_except, requests_get_. rewrite H.
  unfold bind, logging, emit. by rewrite app_snoc.
Qed.

Lemma download_url_get_other url h e :
  requests_get E h url true true = Raise e ->
  (forall msg, e <> SSLError msg) ->
  download_url_get E url h = (Raise e, h ++ [EGet url true true (Raise e)]).
Proof.
  intros H Hne. unfold download_url_get, try_except, requests_get_. rewrite H.
  destruct e; try done. by destruct (Hne msg).
Qed.

Lemma download_url_get_no_write url h r h1 :
  download_url_get E url h = (r, h1) -> writes_of h1 = writes_of h.
Proof.
  destruct (requests_get E h url true true) as [res|e] eqn:Hget.
  - rewrite (download_url_get_ok _ _ _ Hget). intros [= <- <-].
    unfold writes_of. rewrite omap_app. simpl. by rewrite app_nil_r.
  - destruct (ssl_or_not e) as [[msg ->]|Hne].
    + rewrite (download_url_get_ssl _ _ _ Hget). intros [= <- <-].
      unfold writes_of. rewrite !omap_app. simpl. by rewrite !app_nil_r.
    + rewrite (download_url_get_other _ _ _ Hget Hne). intros [= <- <-].
      unfold writes_of. rewrite omap_app. simpl. by rewrite app_nil_r.
Qed.

(** Once the response is there, [download_url] writes one file at most and
    asks for nothing more. *)
Lemma download_url_save_spec res filename h :
  exists r t, download_url_save E res filename h = (r, h ++ t)
              /\ get_attempts t = [] /\ Forall quiet t.
Proof.
  unfold download_url_save, bind, raise_for_status.
  destruct (_ && _); [exists (Raise (HTTPError (status_code res))), []; by rewrite app_nil_r|].
  cbv beta iota delta [ret].
  destruct (str_in _ _).
  { unfold _save_file, bind.
    destruct (Py.split "/" (declared_type res) !! 1%nat) as [ext|]; simpl.
    - unfold open_wb_copy. destruct (write_binary E h _ res) eqn:Hw; simpl.
      + eexists _, [_]. split; [done|]. split; [done|]. by repeat constructor.
      + eexists _, [_]. split; [done|]. split; [done|]. by repeat constructor.
    - eexists _, []. by rewrite app_nil_r. }
  destruct (str_in _ _).
  { unfold _save_text_file, bind, open_wt_write.
    destruct (write_text E h _ res) eqn:Hw; simpl.
    - eexists _, [_]. split; [done|]. split; [done|]. by repeat constructor.
    - eexists _, [_]. split; [done|]. split; [done|]. by repeat constructor. }
  eexists _, []. by rewrite app_nil_r.
Qed.

Lemma download_binary url filename h res h1 ct ext :
  download_url_get E url h = (Ok res, h1) ->
  ~ 400 <= status_code res < 600 ->
  declared_type res = ct ->
  str_in ct ["application/pdf"; "image/jpeg"; "image/png"] = true ->
  Py.split "/" ct !! 1%nat = Some ext ->
  let p := filename +:+ "." +:+ ext in
  let r := write_binary E h1 p res in
  download_url E url filename h = (saved p r, h1 ++ [EWriteBinary p res r]).
Proof.
  intros Hget Hst Hct Hin Hext p r. unfold download_url, bind at 1.
  rewrite Hget. unfold download_url_save, bind at 1, raise_for_status.
  rewrite (not_error_status _ Hst), Hct. cbv beta iota delta [ret]. rewrite Hin.
  unfold _save_file, bind. rewrite Hext. unfold ret, open_wb_copy.
  fold p. fold r. by destruct r.
Qed.

(** Every download starts with the verified request; what follows is quiet. *)
Lemma download_url_spec url filename h :
  exists r t,
    download_url E url filename h
    = (r, h ++ EGet url true true (requests_get E h url true true) :: t)
    /\ Forall quiet t.
Proof.
  unfold download_url, bind.
  destruct (requests_get E h url true true) as [res|e] eqn:Hget.
  - rewrite (download_url_get_ok _ _ _ Hget).
    destruct (download_url_save_spec res filename (h ++ [EGet url true true (Ok res)]))
      as (r & t & -> & _ & Hq).
    exists r, t. by rewrite app_snoc.
  - destruct (ssl_or_not e) as [[msg ->]|Hne].
    + rewrite (download_url_get_ssl _ _ _ Hget).
      set (h1 := h ++ _). set (r2 := requests_get E h1 url true false).
      destruct r2 as [res|e2].
      * destruct (download_url_save_spec res filename (h1 ++ [EGet url true false (Ok res)]))
          as (r & t & -> & _ & Hq).
        exists r, (ssl_warning url :: EGet url true false (Ok res) :: t).
        unfold h1. rewrite <- !app_assoc. split; [done|].
        constructor; [by apply quiet_log|]. by constructor.
      * exists (Raise e2), [ssl_warning url; EGet url true false (Raise e2)].
        unfold h1. rewrite <- !app_assoc. split; [done|].
        constructor; [by apply quiet_log|]. by constructor.
    + rewrite (download_url_get_other _ _ _ Hget Hne). by exists (Raise e), [].
Qed.

End Download.

(** ** The per-asset pipeline *)

Section Pipeline.

Context (E : Env).

Lemma upload_step_spec f bucket h :
  let r := upload_file E (h ++ [ELog INFO "uploading %s to bucket %s "
                                  [PyStr f; PyStr bucket] None])
             f bucket (OsPath.basename f) in
  upload_step E f bucket h =
    (Ok tt, h ++ [ELog INFO "uploading %s to bucket %s " [PyStr f; PyStr bucket] None;
                  EUpload f bucket (OsPath.basename f) r]
              ++ failure_log "error while uploading %s to S3 bucket" [PyStr f] r).
Proof.
  intros r. unfold upload_step, try_except, bind, logging, emit, s3_upload_file.
  fold r. destruct r; simpl; unfold logging_exception, emit;
    rewrite <- ?app_assoc; simpl; by rewrite ?app_nil_r.
Qed.

Lemma delete_step_spec f h :
  let r := os_remove E (h ++ [ELog INFO "deleting %s" [PyStr f] None]) f in
  delete_step E f h =
    (Ok tt, h ++ [ELog INFO "deleting %s" [PyStr f] None; ERemove f r]
              ++ failure_log "error while deleting file %s" [PyStr f] r).
Proof.
  intros r. unfold delete_step, try_except, bind, logging, emit, os_remove_.
  fold r. destruct r; simpl; unfold logging_exception, emit;
    rewrite <- ?app_assoc; simpl; by rewrite ?app_nil_r.
Qed.

(** The compression step never fails: it yields the name to upload. *)
Lemma compress_step_spec f h :
  exists f' t, compress_step E f h = (Ok f', h ++ t) /\ Forall quiet t.
Proof.
  unfold compress_step, try_except, bind, logging, emit. fold (trying f).
  destruct (steps_compress_file E f (h ++ [trying f])) as (t & Heq & Ht).
  destruct (_compress_file E f _) as [[f'|e] h1]; simpl in Heq; subst h1.
  - exists f', (trying f :: t).
    rewrite app_snoc. split; [done|]. constructor; [by apply quiet_log|done].
  - unfold logging_exception, emit.
    exists f, (trying f :: t ++ [ELog ERROR "error while compressing %s" [PyStr f] (Some e)]).
    rewrite !app_snoc, <- app_assoc. split; [done|].
    constructor; [by apply quiet_log|]. apply Forall_app. split; [done|].
    constructor; [by apply quiet_log|done].
Qed.

(** A download that fails ends the asset: nothing but the record of the
    failure follows. *)
Lemma process_url_download_failed url filename bucket h e h1 :
  download_url E url filename (h ++ [downloading url]) = (Raise e, h1) ->
  _process_url E url filename bucket h
  = (Ok tt, h1 ++ [ELog ERROR "error while downloading %s" [url] (Some e)]).
Proof.
  intros H. unfold _process_url, bind, logging, emit, download_step, try_except, bind.
  fold (downloading url). by rewrite H.
Qed.

(** After a download that succeeded, the three remaining steps all run. *)
Lemma process_url_downloaded url filename bucket h f h1 :
  download_url E url filename (h ++ [downloading url]) = (Ok f, h1) ->
  _process_url E url filename bucket h
  = (let* f' := compress_step E f in
     let* _ := upload_step E f' bucket in
     delete_step E f') h1.
Proof.
  intros H. unfold _process_url at 1, bind at 1, logging, emit.
  unfold bind at 1, download_step, try_except, bind at 1.
  fold (downloading url). by rewrite H.
Qed.

(** Whatever happens, [_process_url] returns, having started one download. *)
Lemma process_url_spec url filename bucket h :
  exists t, _process_url E url filename bucket h = (Ok tt, h ++ t)
            /\ downloads_of t = [url] /\ progress_of t = [].
Proof.
  destruct (download_url_spec E url filename (h ++ [downloading url]))
    as (r & t & Hd & Hq).
  destruct r as [f|e].
  - rewrite (process_url_downloaded _ _ _ _ _ _ Hd). unfold bind.
    set (h1 := (h ++ [downloading url]) ++ _).
    destruct (compress_step_spec f h1) as (f' & tc & -> & Hc).
    rewrite upload_step_spec, delete_step_spec.
    eexists. unfold h1. rewrite <- !app_assoc. split; [done|].
    split_history.
    rewrite (quiet_downloads t Hq), (quiet_progress t Hq).
    rewrite (quiet_downloads tc Hc), (quiet_progress tc Hc).
    split; [by destruct (upload_file _ _ _ _ _), (os_remove _ _ _)
           |by destruct (upload_file _ _ _ _ _), (os_remove _ _ _)].
  - rewrite (process_url_download_failed _ _ _ _ _ _ Hd).
    eexists. rewrite <- !app_assoc. split; [done|].
    split_history.
    by rewrite (quiet_downloads t Hq), (quiet_progress t Hq).
Qed.

(** The loop over well-typed records runs to its end. *)
Lemma backup_loop_spec d bucket total mpps :
  Forall named mpps ->
  forall i h, exists t,
    backup_loop E d bucket total i mpps h = (Ok tt, h ++ t)
    /\ downloads_of t = mpps ≫= assets
    /\ progress_of t = counter total i (length mpps).
Proof.
  induction 1 as [|m mpps [name Hname] _ IH]; intros i h.
  { exists []. by rewrite app_nil_r. }
  cbn [backup_loop]. unfold bind at 1, try_except, bind at 1, lift, upper.
  rewrite Hname. unfold bind at 1, logging at 1, emit.
  unfold bind at 1.
  destruct (process_url_spec (Mpp.po_post_url m)
              (d +:+ "/" +:+ fmt E (Mpp.id m) +:+ ".po_post_url") bucket
              (h ++ [ELog INFO "processing %s" [PyStr (str_upper E name)] None]))
    as (t1 & -> & Hd1 & Hp1).
  destruct (process_url_spec (Mpp.po_poster_url m)
              (d +:+ "/" +:+ fmt E (Mpp.id m) +:+ ".po_poster_url") bucket
              ((h ++ [ELog INFO "processing %s" [PyStr (str_upper E name)] None]) ++ t1))
    as (t2 & -> & Hd2 & Hp2).
  unfold bind, logging, emit.
  destruct (IH (i + 1)
              ((((h ++ [ELog INFO "processing %s" [PyStr (str_upper E name)] None]) ++ t1)
                  ++ t2)
                 ++ [ELog INFO "PROGRESS [ %s / %s ]" [PyInt (i + 1); PyInt total] None]))
    as (t3 & -> & Hd3 & Hp3).
  eexists. rewrite <- !app_assoc. split; [done|].
  split_history. rewrite Hd1, Hd2, Hd3, Hp1, Hp2, Hp3.
  split; [done|]. simpl. by rewrite counter_S.
Qed.

End Pipeline.

(** ** The fetcher *)

Section Fetcher.

Context (E : Env).

Lemma retrieve_answered h url res page :
  answers E h url res page ->
  _retrieve_mpps_by_updated_at_date E url h
  = (Ok page, h ++ [EGet url false true (Ok res)]).
Proof.
  intros (Hget & Hst & body & Hbody & Hpage).
  unfold _retrieve_mpps_by_updated_at_date, bind at 1, requests_get_.
  rewrite Hget, Hst. simpl. unfold bind. rewrite Hbody. unfold ret, lift. by rewrite Hpage.
Qed.

Lemma fetch_loop_done fuel api_res records h :
  RetrieveMppsApiBody.next api_res = PyNone ->
  fetch_loop E fuel api_res records h = Some (Ok records, h).
Proof. intros H. destruct fuel; simpl; by rewrite H. Qed.

Lemma fetch_loop_step fuel api_res records h :
  RetrieveMppsApiBody.next api_res <> PyNone ->
  fetch_loop E (S fuel) api_res records h =
    match _retrieve_mpps_by_updated_at_date E (RetrieveMppsApiBody.next api_res) h with
    | (Ok api_res', h') =>
        fetch_loop E fuel api_res' (records ++ RetrieveMppsApiBody.results api_res') h'
    | (Raise e, h') => Some (Raise e, h')
    end.
Proof. intros H. simpl. by destruct (RetrieveMppsApiBody.next api_res). Qed.

(** With one unit of fuel per page still to come, the loop gathers them. *)
Lemma fetch_loop_serves h url pages h' :
  serves E h url pages h' ->
  forall fuel api_res records,
    RetrieveMppsApiBody.next api_res = url -> url <> PyNone ->
    (length pages <= fuel)%nat ->
    fetch_loop E fuel api_res records h
    = Some (Ok (records ++ concat (RetrieveMppsApiBody.results <$> pages)), h').
Proof.
  induction 1 as [h url res page Hans Hnext|h url res page pages h' Hans Hnext _ IH];
    intros fuel api_res records Hurl Hne Hfuel.
  - destruct fuel as [|fuel]; [simpl in Hfuel; lia|].
    rewrite fetch_loop_step by congruence. rewrite Hurl, (retrieve_answered _ _ _ _ Hans).
    rewrite fetch_loop_done by done. simpl. by rewrite app_nil_r.
  - destruct fuel as [|fuel]; [simpl in Hfuel; lia|].
    rewrite fetch_loop_step by congruence. rewrite Hurl, (retrieve_answered _ _ _ _ Hans).
    rewrite (IH fuel page _ eq_refl Hnext) by (simpl in Hfuel; lia).
    simpl. by rewrite app_assoc.
Qed.

(** Serving [pages] takes one request per page: the first URL, then the
    [next] of every page but the last. *)
Lemma serves_requests h url pages h' :
  serves E h url pages h' ->
  exists t, h' = h ++ t /\ length t = length pages
            /\ listing_requests t = url :: (RetrieveMppsApiBody.next <$> removelast pages).
Proof.
  induction 1 as [h url res page Hans Hnext|h url res page pages h' Hans Hnext Hrest IH].
  - by exists [EGet url false true (Ok res)].
  - destruct IH as (t & -> & Hlen & Hreq).
    exists (EGet url false true (Ok res) :: t). rewrite <- app_assoc. split; [done|].
    split; [simpl; lia|].
    change (listing_requests (EGet url false true (Ok res) :: t))
      with (url :: listing_requests t).
    rewrite Hreq. destruct pages; [inversion Hrest|done].
Qed.

(** A record that lacks a field is never built. *)
Lemma init_missing d k :
  k ∈ Mpp.fields -> d !! k = None -> exists msg, Mpp.init d = Raise (TypeError msg).
Proof.
  intros Hk Hnone. unfold Mpp.init.
  destruct (negb _); [eauto|]. unfold Mpp.kwarg, rbind.
  repeat match goal with
         | |- context [match d !! ?x with _ => _ end] =>
             destruct (d !! x) eqn:?; [|eauto]
         end.
  unfold Mpp.fields in Hk.
  repeat (apply elem_of_cons in Hk as [->|Hk]; [congruence|]).
  by apply elem_of_nil in Hk.
Qed.

Lemma from_api_dict_missing d k :
  k ∈ Mpp.fields -> d !! k = None -> exists e, Mpp.from_api_dict E (PyDict d) = Raise e.
Proof.
  intros Hk Hnone. unfold Mpp.from_api_dict, rbind.
  destruct (Mpp.raw_dates (PyDict d)) as [[[[[? ?] ?] ?] ?]|e]; [|eauto].
  repeat match goal with
         | |- context [match Mpp.parse_date E ?x with _ => _ end] =>
             destruct (Mpp.parse_date E x); [|eauto]
         | |- context [match Mpp.parse_datetime E ?x with _ => _ end] =>
             destruct (Mpp.parse_datetime E x); [|eauto]
         end.
  destruct (init_missing d k Hk Hnone) as (msg & ->). eauto.
Qed.

End Fetcher.

(** ** The batch as a history *)

Section AssetHistory.

Context (E : Env).

Lemma compress_step_compressed f h :
  compress_step E f h = (Ok (compressed E f h).1, (compressed E f h).2).
Proof.
  unfold compress_step, compressed, try_except, bind, logging, emit. fold (trying f).
  by destruct (_compress_file E f (h ++ [trying f])) as [[f'|e] h2].
Qed.

Lemma stored_steps f bucket hc :
  (let* _ := upload_step E f bucket in delete_step E f) hc = (Ok tt, stored E f bucket hc).
Proof.
  unfold bind. rewrite upload_step_spec, delete_step_spec. reflexivity.
Qed.

Lemma process_url_history url filename bucket h :
  _process_url E url filename bucket h = (Ok tt, asset_history E url filename bucket h).
Proof.
  unfold asset_history.
  destruct (download_url E url filename (h ++ [downloading url])) as [[f|e] h1] eqn:Hd.
  - rewrite (process_url_downloaded E _ _ _ _ _ _ Hd).
    unfold bind at 1. rewrite compress_step_compressed.
    destruct (compressed E f h1) as [f' hc]. apply stored_steps.
  - by apply process_url_download_failed.
Qed.

Lemma backup_loop_history d bucket total mpps :
  Forall named mpps ->
  forall i h,
    backup_loop E d bucket total i mpps h
    = (Ok tt, batch_history E d bucket total i mpps h).
Proof.
  induction 1 as [|m mpps [name Hname] _ IH]; intros i h; [done|].
  cbn [backup_loop batch_history]. unfold bind at 1, try_except, bind at 1, lift, upper.
  rewrite Hname. unfold bind at 1, logging at 1, emit.
  unfold bind at 1. rewrite process_url_history, process_url_history.
  unfold bind, logging, emit. apply IH.
Qed.

End AssetHistory.

Lemma saved_of_app a b : saved_of (a ++ b) = saved_of a ++ saved_of b.
Proof. apply omap_app. Qed.

Lemma uploads_of_app a b : uploads_of (a ++ b) = uploads_of a ++ uploads_of b.
Proof. apply omap_app. Qed.

Lemma removes_of_app a b : removes_of (a ++ b) = removes_of a ++ removes_of b.
Proof. apply omap_app. Qed.

Lemma inert_nothing t :
  Forall inert t -> saved_of t = [] /\ uploads_of t = [] /\ removes_of t = [].
Proof.
  induction 1 as [|e t He _ (Hs & Hu & Hr)]; [done|].
  destruct e; try done; repeat split; first [exact Hs|exact Hu|exact Hr].
Qed.

Section Inert.

Context (E : Env).

Lemma inert_subprocess_run args check : steps (subprocess_run E args check) inert.
Proof.
  intros h. exists [ERun args (run_process E h args)]. unfold subprocess_run.
  split; [|by repeat constructor].
  destruct (run_process E h args); [|done..]. by destruct (_ && _).
Qed.

Lemma inert_change_extension f x : steps (_change_extension E f x) inert.
Proof.
  unfold _change_extension. destruct (OsPath.splitext f).
  apply steps_bind; [apply inert_subprocess_run|intros; apply steps_ret].
Qed.

Lemma inert_compress_png f : steps (compress_png E f) inert.
Proof.
  unfold compress_png. apply steps_bind; [apply inert_subprocess_run|intros cp].
  destruct (Py.contains _ _); [apply steps_raise|].
  destruct (OsPath.splitext f). destruct (String.eqb _ _); [apply steps_ret|].
  apply inert_change_extension.
Qed.

Lemma inert_compress_jpeg f : steps (compress_jpeg E f) inert.
Proof.
  unfold compress_jpeg. apply steps_bind.
  - apply steps_try; [apply inert_subprocess_run|].
    intros []; try apply steps_raise. destruct (Py.contains _ _); apply steps_raise.
  - intros _. destruct (OsPath.splitext f). destruct (String.eqb _ _); [apply steps_ret|].
    apply inert_change_extension.
Qed.

Lemma inert_compress_pdf f : steps (compress_pdf E f) inert.
Proof.
  unfold compress_pdf. repeat (apply steps_bind; [apply inert_subprocess_run|intros _]).
  apply steps_ret.
Qed.

Local Ltac log_inert :=
  first [ apply steps_ret
        | by apply steps_emit
        | apply steps_bind; [by apply steps_emit|intros; apply steps_ret] ].

Lemma inert_compress_file f : steps (_compress_file E f) inert.
Proof.
  unfold _compress_file. destruct (OsPath.splitext f) as [r e].
  destruct (String.eqb e ".pdf").
  { apply steps_try; [apply inert_compress_pdf|]. intros []; try apply steps_raise.
    unfold logging. log_inert. }
  destruct (str_in e _); [|apply steps_ret].
  destruct (String.eqb e ".jpeg").
  { apply steps_try; [apply inert_compress_jpeg|]. unfold logging, logging_exception.
    intros []; try log_inert.
    destruct (Py.contains _ _); [|log_inert].
    apply steps_try; [|intros; log_inert].
    apply steps_bind; [apply inert_compress_png|intros; log_inert]. }
  destruct (String.eqb e ".png"); [|apply steps_ret].
  apply steps_try; [apply inert_compress_png|]. unfold logging, logging_exception.
  intros []; try log_inert.
  destruct (Py.contains _ _); [|log_inert].
  apply steps_try; [|intros; log_inert].
  apply steps_bind; [apply inert_compress_jpeg|intros; log_inert].
Qed.

Lemma compressed_inert f h :
  exists t, (compressed E f h).2 = h ++ t /\ Forall inert t.
Proof.
  unfold compressed.
  destruct (inert_compress_file f (h ++ [trying f])) as (t & Heq & Ht).
  destruct (_compress_file E f _) as [[f'|e] h1]; simpl in Heq; subst h1; simpl.
  - exists (trying f :: t). rewrite app_snoc. split; [done|]. by constructor.
  - exists (trying f :: t ++ [ELog ERROR "error while compressing %s" [PyStr f] (Some e)]).
    rewrite !app_snoc, <- app_assoc. split; [done|].
    constructor; [done|]. apply Forall_app. split; [done|]. by constructor.
Qed.

(** A download writes the file it returns, and no other. *)
Lemma download_url_save_saved res filename h :
  exists t, (download_url_save E res filename h).2 = h ++ t
            /\ uploads_of t = [] /\ removes_of t = []
            /\ saved_of t = match (download_url_save E res filename h).1 with
                            | Ok f => [f]
                            | Raise _ => []
                            end.
Proof.
  unfold download_url_save, bind, raise_for_status.
  destruct (_ && _); [exists []; by rewrite app_nil_r|].
  cbv beta iota delta [ret].
  destruct (str_in _ _).
  { unfold _save_file, bind.
    destruct (Py.split "/" (declared_type res) !! 1%nat) as [ext|]; simpl.
    - unfold open_wb_copy. destruct (write_binary E h _ res) eqn:Hw; simpl.
      + eexists [_]. by repeat split.
      + eexists [_]. by repeat split.
    - exists []. by rewrite app_nil_r. }
  destruct (str_in _ _).
  { unfold _save_text_file, bind, open_wt_write.
    destruct (write_text E h _ res) eqn:Hw; simpl.
    - eexists [_]. by repeat split.
    - eexists [_]. by repeat split. }
  exists []. by rewrite app_nil_r.
Qed.

Lemma download_url_saved url filename h :
  exists t, (download_url E url filename h).2 = h ++ t
            /\ uploads_of t = [] /\ removes_of t = []
            /\ saved_of t = match (download_url E url filename h).1 with
                            | Ok f => [f]
                            | Raise _ => []
                            end.
Proof.
  unfold download_url, bind.
  destruct (download_url_get E url h) as [[res|e] h1] eqn:Hget.
  - assert (Hh1 : exists t1, h1 = h ++ t1 /\ Forall inert t1).
    { destruct (requests_get E h url true true) as [res'|e'] eqn:Hreq.
      - rewrite (download_url_get_ok E _ _ _ Hreq) in Hget. injection Hget as <- <-.
        eexists. split; [done|]. by repeat constructor.
      - destruct (ssl_or_not e') as [[msg ->]|Hne].
        + rewrite (download_url_get_ssl E _ _ _ Hreq) in Hget. injection Hget as _ <-.
          rewrite <- app_assoc. eexists. split; [done|]. by repeat constructor.
        + by rewrite (download_url_get_other E _ _ _ Hreq Hne) in Hget. }
    destruct Hh1 as (t1 & -> & Ht1).
    destruct (download_url_save_saved res filename (h ++ t1)) as (t & Heq & Hu & Hr & Hs).
    destruct (inert_nothing _ Ht1) as (Hs1 & Hu1 & Hr1).
    exists (t1 ++ t). rewrite Heq, app_assoc. split; [done|].
    by rewrite uploads_of_app, removes_of_app, saved_of_app, Hs1, Hu1, Hr1, Hu, Hr, Hs.
  - assert (Hh1 : exists t1, h1 = h ++ t1 /\ Forall inert t1).
    { destruct (requests_get E h url true true) as [res'|e'] eqn:Hreq.
      - by rewrite (download_url_get_ok E _ _ _ Hreq) in Hget.
      - destruct (ssl_or_not e') as [[msg ->]|Hne].
        + rewrite (download_url_get_ssl E _ _ _ Hreq) in Hget. injection Hget as _ <-.
          rewrite <- app_assoc. eexists. split; [done|]. by repeat constructor.
        + rewrite (download_url_get_other E _ _ _ Hreq Hne) in Hget.
          injection Hget as _ <-. eexists. split; [done|]. by repeat constructor. }
    destruct Hh1 as (t1 & -> & Ht1).
    destruct (inert_nothing _ Ht1) as (Hs1 & Hu1 & Hr1).
    exists t1. by simpl.
Qed.

(** Every file a download wrote is the object of one upload attempt and one
    deletion attempt, made for the same name. *)
Lemma asset_history_stores url filename bucket h :
  exists t, asset_history E url filename bucket h = h ++ t
            /\ removes_of t = uploads_of t
            /\ length (uploads_of t) = length (saved_of t).
Proof.
  unfold asset_history.
  destruct (download_url_saved url filename (h ++ [downloading url]))
    as (t & Heq & Hu & Hr & Hs).
  destruct (download_url E url filename (h ++ [downloading url])) as [[f|e] h1];
    simpl in Heq, Hs; subst h1.
  - destruct (compressed_inert f ((h ++ [downloading url]) ++ t)) as (tc & Heqc & Htc).
    destruct (compressed E f _) as [f' hc]. simpl in Heqc. subst hc.
    destruct (inert_nothing _ Htc) as (Hsc & Huc & Hrc).
    unfold stored. eexists. rewrite <- !app_assoc. split; [done|].
    rewrite !removes_of_app, !uploads_of_app, !saved_of_app, Hu, Hr, Hs, Hsc, Huc, Hrc.
    by destruct (upload_file _ _ _ _ _), (os_remove _ _ _).
  - eexists. rewrite <- !app_assoc. split; [done|].
    by rewrite !removes_of_app, !uploads_of_app, !saved_of_app, Hu, Hr, Hs.
Qed.

Lemma batch_history_stores d bucket total mpps :
  forall i h, exists t,
    batch_history E d bucket total i mpps h = h ++ t
    /\ removes_of t = uploads_of t
    /\ length (uploads_of t) = length (saved_of t).
Proof.
  induction mpps as [|m mpps IH]; intros i h.
  { exists []. by rewrite app_nil_r. }
  cbn [batch_history].
  set (name := match Mpp.mp_name m with PyStr s => str_upper E s | _ => "" end).
  set (h0 := h ++ [ELog INFO "processing %s" [PyStr name] None]).
  destruct (asset_history_stores (Mpp.po_post_url m)
              (d +:+ "/" +:+ fmt E (Mpp.id m) +:+ ".po_post_url") bucket h0)
    as (t1 & -> & Hr1 & Hl1).
  destruct (asset_history_stores (Mpp.po_poster_url m)
              (d +:+ "/" +:+ fmt E (Mpp.id m) +:+ ".po_poster_url") bucket (h0 ++ t1))
    as (t2 & -> & Hr2 & Hl2).
  destruct (IH (i + 1)
              (((h0 ++ t1) ++ t2)
                 ++ [ELog INFO "PROGRESS [ %s / %s ]" [PyInt (i + 1); PyInt total] None]))
    as (t3 & -> & Hr3 & Hl3).
  unfold h0. eexists. rewrite <- !app_assoc. split; [done|].
  rewrite !removes_of_app, !uploads_of_app, !saved_of_app, Hr1, Hr2, Hr3.
  split; [done|]. rewrite !List.length_app, Hl1, Hl2, Hl3. done.
Qed.

End Inert.

(** ** The compressor: fallback, pass-through, names *)

(** C1.  A file whose name has the extension of one raster format and whose
    compressor reports that it is not of that format (a [ValueError] with the
    phrase of the tool) is handed, in the state the first attempt left, to
    the compressor of the sibling format.  When that one returns, the
    compressor returns the same root with the sibling's extension: [x.jpeg]
    becomes [x.png], and [x.png] becomes [x.jpeg].  When it fails too, the
    failure is logged and the original name is returned. *)
Theorem cross_format_fallback E fmt filename root h msg h1 :
  OsPath.splitext filename = (root, extension fmt) ->
  compressor E fmt filename h = (Raise (ValueError msg), h1) ->
  Py.contains (mismatch_phrase fmt) msg = true ->
  (forall f h2,
     compressor E (sibling fmt) filename h1 = (Ok f, h2) ->
     f = root +:+ extension (sibling fmt)
     /\ _compress_file E filename h
        = (Ok (root +:+ extension (sibling fmt)),
           h2 ++ [renamed_log fmt filename (root +:+ extension (sibling fmt))]))
  /\ (forall e h2,
        compressor E (sibling fmt) filename h1 = (Raise e, h2) ->
        _compress_file E filename h = (Ok filename, h2 ++ [unable filename e])).
Proof.
  intros Hs Hfirst Hmsg. rewrite (compress_file_image E fmt _ _ _ Hs), Hfirst, Hmsg.
  split.
  - intros f h2 Hsecond. rewrite Hsecond.
    pose proof (compressor_ok E _ _ _ _ _ _ _ Hs Hsecond) as Hf.
    assert (Hne : String.eqb (extension fmt) (extension (sibling fmt)) = false)
      by (by destruct fmt).
    rewrite Hne in Hf. by subst f.
  - intros e h2 Hsecond. by rewrite Hsecond.
Qed.

Lemma cross_format_fallback_witness :
  (sample_png = sample_root +:+ extension (sibling Jpeg)
   /\ _compress_file env_png_named_jpeg sample_jpeg []
      = (Ok (sample_root +:+ extension (sibling Jpeg)),
         [ERun ["jpegoptim"; "-v"; sample_jpeg]
            (Exited 1 "7.jpeg [ERROR] Not a JPEG file: starts with 0x89 0x50" "");
          ERun ["pngcrush"; "-brute"; "-ow"; sample_jpeg] (Exited 0 "" "");
          ERun (mv_args sample_jpeg sample_png) (Exited 0 "" "")]
         ++ [renamed_log Jpeg sample_jpeg (sample_root +:+ extension (sibling Jpeg))]))
  /\ (sample_jpeg = sample_root +:+ extension (sibling Png)
      /\ _compress_file env_jpeg_named_png sample_png []
         = (Ok (sample_root +:+ extension (sibling Png)),
            [ERun ["pngcrush"; "-brute"; "-ow"; sample_png]
               (Exited 0 "" "pngcrush: Not a PNG file..");
             ERun ["jpegoptim"; "-v"; sample_png] (Exited 0 "" "");
             ERun (mv_args sample_png sample_jpeg) (Exited 0 "" "")]
            ++ [renamed_log Png sample_png (sample_root +:+ extension (sibling Png))])).
Proof.
  split.
  - exact (proj1 (cross_format_fallback env_png_named_jpeg Jpeg sample_jpeg sample_root []
                    "Not a JPEG file"
                    [ERun ["jpegoptim"; "-v"; sample_jpeg]
                       (Exited 1 "7.jpeg [ERROR] Not a JPEG file: starts with 0x89 0x50" "")]
                    eq_refl eq_refl eq_refl)
             sample_png
             [ERun ["jpegoptim"; "-v"; sample_jpeg]
                (Exited 1 "7.jpeg [ERROR] Not a JPEG file: starts with 0x89 0x50" "");
              ERun ["pngcrush"; "-brute"; "-ow"; sample_jpeg] (Exited 0 "" "");
              ERun (mv_args sample_jpeg sample_png) (Exited 0 "" "")]
             eq_refl).
  - exact (proj1 (cross_format_fallback env_jpeg_named_png Png sample_png sample_root []
                    "Not a PNG file"
                    [ERun ["pngcrush"; "-brute"; "-ow"; sample_png]
                       (Exited 0 "" "pngcrush: Not a PNG file..")]
                    eq_refl eq_refl eq_refl)
             sample_jpeg
             [ERun ["pngcrush"; "-brute"; "-ow"; sample_png]
                (Exited 0 "" "pngcrush: Not a PNG file..");
              ERun ["jpegoptim"; "-v"; sample_png] (Exited 0 "" "");
              ERun (mv_args sample_png sample_jpeg) (Exited 0 "" "")]
             eq_refl).
Defined.

(** C9.  A file whose extension is none of [.pdf], [.jpeg], [.png] (an
    [.html] page, say) is passed through: the compressor returns the name it
    was given and leaves the history as it was, so that it ran no tool and
    touched no file, whatever way the files are read off the history; and
    compressing twice is compressing once. *)
Theorem compress_passthrough_noop E filename h :
  str_in (OsPath.splitext filename).2 [".pdf"; ".jpeg"; ".png"] = false ->
  _compress_file E filename h = (Ok filename, h)
  /\ (forall (file_content : history -> string -> option string),
        file_content (_compress_file E filename h).2 filename = file_content h filename)
  /\ (let* f := _compress_file E filename in _compress_file E f) h
     = _compress_file E filename h.
Proof.
  intros Hext. pose proof (compress_file_passthrough E filename h Hext) as Hnoop.
  split; [done|]. split.
  - intros file_content. by rewrite Hnoop.
  - by rewrite (bind_ok _ _ _ _ _ Hnoop).
Qed.

Lemma compress_passthrough_noop_witness :
  _compress_file env_all_well sample_html [] = (Ok sample_html, []).
Proof.
  exact (proj1 (compress_passthrough_noop env_all_well sample_html [] eq_refl)).
Defined.

(** C10.  The name the compressor returns has the root of the name it was
    given, hence its directory too.  It is that very name unless the
    fallback took place: the name had the extension of one raster format,
    the compressor of that format reported a mismatch, the compressor of the
    sibling format returned, and the new extension is the sibling's. *)
Theorem compress_preserves_root E filename h f h' :
  _compress_file E filename h = (Ok f, h') ->
  (OsPath.splitext f).1 = (OsPath.splitext filename).1
  /\ OsPath.dirname f = OsPath.dirname filename
  /\ (f = filename
      \/ exists fmt msg h1 h2,
           (OsPath.splitext filename).2 = extension fmt
           /\ f = (OsPath.splitext filename).1 +:+ extension (sibling fmt)
           /\ (OsPath.splitext f).2 = extension (sibling fmt)
           /\ compressor E fmt filename h = (Raise (ValueError msg), h1)
           /\ Py.contains (mismatch_phrase fmt) msg = true
           /\ compressor E (sibling fmt) filename h1 = (Ok f, h2)).
Proof.
  intros Hrun. destruct (OsPath.splitext filename) as [root ext] eqn:Hs. simpl.
  enough (Hcases :
    f = filename
    \/ exists fmt msg h1 h2,
         ext = extension fmt
         /\ f = root +:+ extension (sibling fmt)
         /\ compressor E fmt filename h = (Raise (ValueError msg), h1)
         /\ Py.contains (mismatch_phrase fmt) msg = true
         /\ compressor E (sibling fmt) filename h1 = (Ok f, h2)).
  { destruct Hcases as [->|(fmt & msg & h1 & h2 & -> & -> & Hfb)].
    - rewrite Hs. auto.
    - destruct (root_of_sibling _ _ _ (sibling fmt) Hs) as [Hs' Hdir];
        [by destruct fmt|].
      rewrite Hs'. simpl. do 2 (split; [done|]). right.
      exists fmt, msg, h1, h2. do 3 (split; [done|]). exact Hfb. }
  assert (Himage : forall fmt, ext = extension fmt ->
    f = filename
    \/ exists fmt msg h1 h2,
         ext = extension fmt
         /\ f = root +:+ extension (sibling fmt)
         /\ compressor E fmt filename h = (Raise (ValueError msg), h1)
         /\ Py.contains (mismatch_phrase fmt) msg = true
         /\ compressor E (sibling fmt) filename h1 = (Ok f, h2)).
  { intros fmt ->. rewrite (compress_file_image E fmt _ _ _ Hs) in Hrun.
    destruct (compressor E fmt filename h) as [[f1|e] h1] eqn:Hfirst.
    - left. injection Hrun as <- <-.
      pose proof (compressor_ok E _ _ _ _ _ _ _ Hs Hfirst) as Hf.
      by rewrite String.eqb_refl in Hf.
    - destruct e; try (left; by injection Hrun as <- <-).
      destruct (Py.contains (mismatch_phrase fmt) msg) eqn:Hmsg;
        [|left; by injection Hrun as <- <-].
      destruct (compressor E (sibling fmt) filename h1) as [[f2|e'] h2] eqn:Hsecond;
        [|left; by injection Hrun as <- <-].
      injection Hrun as <- <-. right. exists fmt, msg, h1, h2.
      pose proof (compressor_ok E _ _ _ _ _ _ _ Hs Hsecond) as Hf.
      assert (Hne : String.eqb (extension fmt) (extension (sibling fmt)) = false)
        by (by destruct fmt).
      rewrite Hne in Hf. by subst f2. }
  destruct (String.eqb_spec ext ".pdf") as [->|Hpdf].
  { left. rewrite (compress_file_pdf E _ _ _ Hs) in Hrun.
    destruct (compress_pdf E filename h) as [[f1|e] h1] eqn:Hrun_pdf.
    - injection Hrun as <- <-. by eapply compress_pdf_ok.
    - destruct e; try done. by injection Hrun as <- <-. }
  destruct (String.eqb_spec ext ".jpeg") as [->|Hjpeg]; [by apply (Himage Jpeg)|].
  destruct (String.eqb_spec ext ".png") as [->|Hpng]; [by apply (Himage Png)|].
  left. rewrite compress_file_passthrough in Hrun; [by injection Hrun as <- <-|].
  rewrite Hs. unfold str_in. cbn [existsb snd].
  apply String.eqb_neq in Hpdf, Hjpeg, Hpng. by rewrite Hpdf, Hjpeg, Hpng.
Qed.

Lemma compress_preserves_root_witness :
  (OsPath.splitext sample_png).1 = (OsPath.splitext sample_jpeg).1
  /\ OsPath.dirname sample_png = OsPath.dirname sample_jpeg.
Proof.
  pose proof (compress_preserves_root env_png_named_jpeg sample_jpeg [] sample_png
                [ERun ["jpegoptim"; "-v"; sample_jpeg]
                   (Exited 1 "7.jpeg [ERROR] Not a JPEG file: starts with 0x89 0x50" "");
                 ERun ["pngcrush"; "-brute"; "-ow"; sample_jpeg] (Exited 0 "" "");
                 ERun (mv_args sample_jpeg sample_png) (Exited 0 "" "");
                 renamed_log Jpeg sample_jpeg sample_png]
                eq_refl) as (Hroot & Hdir & _).
  exact (conj Hroot Hdir).
Defined.

(** ** The downloader: retry and extension *)

(** C8, as the code has it.  When the first request of a download fails
    with an [SSLError] (what [requests] raises when a certificate does not
    verify), the script logs a warning and asks once more with
    [verify=False]: the requests of the download are these two and no other,
    whatever the second one brings.  When the first request fails with
    anything that is not an [SSLError], the failure leaves [download_url] at
    once, after that one request.  When the last request made returns a
    response with a 4xx or 5xx status, the download fails with an
    [HTTPError]; a response with any other status passes the check of the
    status and goes on to be saved. *)
Theorem download_retries_once_on_ssl_error E url filename h :
  (forall msg,
     requests_get E h url true true = Raise (SSLError msg) ->
     let h1 := h ++ [EGet url true true (Raise (SSLError msg)); ssl_warning url] in
     let r2 := requests_get E h1 url true false in
     exists t,
       (download_url E url filename h).2 = h1 ++ EGet url true false r2 :: t
       /\ get_attempts ([EGet url true true (Raise (SSLError msg)); ssl_warning url;
                         EGet url true false r2] ++ t)
          = [(url, true); (url, false)]
       /\ (forall e, r2 = Raise e ->
             download_url E url filename h = (Raise e, h1 ++ [EGet url true false r2])))
  /\ (forall e,
        requests_get E h url true true = Raise e ->
        (forall msg, e <> SSLError msg) ->
        download_url E url filename h = (Raise e, h ++ [EGet url true true (Raise e)]))
  /\ (forall res h1,
        download_url_get E url h = (Ok res, h1) ->
        400 <= status_code res < 600 ->
        download_url E url filename h = (Raise (HTTPError (status_code res)), h1))
  /\ (forall res h1,
        download_url_get E url h = (Ok res, h1) ->
        ~ 400 <= status_code res < 600 ->
        raise_for_status res h1 = (Ok tt, h1)
        /\ download_url E url filename h = download_url_save E res filename h1).
Proof.
  split; [|split; [|split]].
  - intros msg H h1 r2. unfold download_url, bind.
    rewrite (download_url_get_ssl _ _ _ _ H). fold h1. fold r2.
    destruct r2 as [res|e].
    + destruct (download_url_save_spec E res filename (h1 ++ [EGet url true false (Ok res)]))
        as (r & t & -> & Hg & _).
      exists t. split; [simpl; by rewrite app_snoc|].
      split; [by rewrite get_attempts_app, Hg|done].
    + exists []. split; [done|]. split; [done|]. by intros e' [= <-].
  - intros e H Hne. unfold download_url, bind.
    by rewrite (download_url_get_other _ _ _ _ H Hne).
  - intros res h1 H Hst. unfold download_url, bind. rewrite H.
    unfold download_url_save, bind, raise_for_status.
    assert (Hb : (400 <=? status_code res) && (status_code res <? 600) = true).
    { apply andb_true_iff. split; [apply Z.leb_le|apply Z.ltb_lt]; lia. }
    by rewrite Hb.
  - intros res h1 H Hst. split.
    + unfold raise_for_status. by rewrite (not_error_status _ Hst).
    + unfold download_url, bind. by rewrite H.
Qed.

Lemma download_retries_once_on_ssl_error_witness :
  exists t,
    (download_url env_bad_certificate (PyStr "https://a/7.png") sample_root []).2
    = [EGet (PyStr "https://a/7.png") true true (Raise (SSLError "certificate verify failed"));
       ssl_warning (PyStr "https://a/7.png")]
      ++ EGet (PyStr "https://a/7.png") true false (Ok (response_of "image/png")) :: t
    /\ get_attempts
         ([EGet (PyStr "https://a/7.png") true true
             (Raise (SSLError "certificate verify failed"));
           ssl_warning (PyStr "https://a/7.png");
           EGet (PyStr "https://a/7.png") true false (Ok (response_of "image/png"))] ++ t)
       = [(PyStr "https://a/7.png", true); (PyStr "https://a/7.png", false)].
Proof.
  destruct (proj1 (download_retries_once_on_ssl_error env_bad_certificate
                     (PyStr "https://a/7.png") sample_root [])
              "certificate verify failed" eq_refl) as (t & Hrun & Hgets & _).
  exists t. exact (conj Hrun Hgets).
Defined.

(** C8, as stated, fails: a status that is not a success status need not
    fail the download.  A last response with status 304 passes
    [raise_for_status], and its body is saved. *)
Lemma not_modified_is_saved :
  status_code not_modified = 304
  /\ download_url env_not_modified (PyStr "http://a/7.png") sample_root []
     = (Ok sample_png,
        [EGet (PyStr "http://a/7.png") true true (Ok not_modified);
         EWriteBinary sample_png not_modified None]).
Proof. split; reflexivity. Qed.

(** C4, as the code has it.  The extension follows from the [Content-Type]
    header, lower-cased and stripped, compared as a whole: [application/pdf]
    gives [.pdf], [image/jpeg] gives [.jpeg], [image/png] gives [.png] and
    [text/html; charset=utf-8] gives [.html]; the download returns the base
    name with that extension when the file could be written.  Every other
    value of the header, [text/html] without that charset among them, makes
    the download fail with the [ValueError] that names the type, and then no
    file is written. *)
Theorem download_extension_by_content_type E url filename h res h1 :
  download_url_get E url h = (Ok res, h1) ->
  ~ 400 <= status_code res < 600 ->
  let binary ext :=
    let p := filename +:+ ext in
    let r := write_binary E h1 p res in
    download_url E url filename h = (saved p r, h1 ++ [EWriteBinary p res r]) in
  (declared_type res = "application/pdf" -> binary ".pdf")
  /\ (declared_type res = "image/jpeg" -> binary ".jpeg")
  /\ (declared_type res = "image/png" -> binary ".png")
  /\ (declared_type res = "text/html; charset=utf-8" ->
      let p := filename +:+ ".html" in
      let r := write_text E h1 p res in
      download_url E url filename h = (saved p r, h1 ++ [EWriteText p res r]))
  /\ (str_in (declared_type res)
        ["application/pdf"; "image/jpeg"; "image/png"; "text/html; charset=utf-8"] = false ->
      download_url E url filename h
      = (Raise (ValueError ("Content-Type '" +:+ declared_type res +:+ "' is not supported")),
         h1)
      /\ writes_of h1 = writes_of h).
Proof.
  intros Hget Hst binary.
  split; [|split; [|split; [|split]]]; intros Hct; try subst binary; cbv beta.
  - by apply (download_binary E _ _ _ _ _ "application/pdf" "pdf").
  - by apply (download_binary E _ _ _ _ _ "image/jpeg" "jpeg").
  - by apply (download_binary E _ _ _ _ _ "image/png" "png").
  - intros p r. unfold download_url, bind at 1.
    rewrite Hget. unfold download_url_save, bind at 1, raise_for_status.
    rewrite (not_error_status _ Hst), Hct. cbv beta iota delta [ret].
    change (str_in "text/html; charset=utf-8" ["application/pdf"; "image/jpeg"; "image/png"])
      with false.
    change (str_in "text/html; charset=utf-8" ["text/html; charset=utf-8"]) with true.
    cbv iota. unfold _save_text_file, bind, open_wt_write. fold p. fold r. by destruct r.
  - split; [|by eapply download_url_get_no_write].
    unfold download_url, bind at 1.
    rewrite Hget. unfold download_url_save, bind at 1, raise_for_status.
    rewrite (not_error_status _ Hst). cbv beta iota delta [ret].
    unfold str_in in *. cbn [existsb] in *.
    repeat (apply orb_false_iff in Hct as [? Hct]).
    by repeat match goal with H : String.eqb _ _ = false |- _ => rewrite H; clear H end.
Qed.

Lemma download_extension_by_content_type_witness :
  download_url env_all_well (PyStr "http://a/7.png") sample_root []
  = (Ok sample_png,
     [EGet (PyStr "http://a/7.png") true true (Ok (response_of "image/png"))]
     ++ [EWriteBinary sample_png (response_of "image/png") None]).
Proof.
  assert (Hst : ~ 400 <= status_code (response_of "image/png") < 600) by (simpl; lia).
  destruct (download_extension_by_content_type env_all_well (PyStr "http://a/7.png")
              sample_root [] (response_of "image/png")
              [EGet (PyStr "http://a/7.png") true true (Ok (response_of "image/png"))]
              eq_refl Hst) as (_ & _ & Hpng & _).
  exact (Hpng eq_refl).
Defined.

(** C4, as stated, fails: a response that declares HTML text as plain
    [text/html] is not saved under [.html]; the download is refused. *)
Lemma html_without_charset_rejected :
  declared_type (response_of "text/html") = "text/html"
  /\ download_url env_plain_html (PyStr "http://a/7") "/tmp/tmpq/7.po_post_url" []
     = (Raise (ValueError "Content-Type 'text/html' is not supported"),
        [EGet (PyStr "http://a/7") true true (Ok (response_of "text/html"))]).
Proof. split; reflexivity. Qed.

(** ** The pipeline and the batch *)

(** C6.  Once an asset is downloaded, whatever the compression step did,
    the upload of the resulting file is attempted and then the removal of
    that same file, in this order and whether or not the upload failed; a
    failure of either is recorded in the log, and [_process_url] returns
    normally. *)
Theorem cleanup_follows_upload E url filename bucket h f h1 :
  download_url E url filename (h ++ [downloading url]) = (Ok f, h1) ->
  exists f' hc,
    compress_step E f h1 = (Ok f', hc) /\
    let announce_up := ELog INFO "uploading %s to bucket %s " [PyStr f'; PyStr bucket] None in
    let ru := upload_file E (hc ++ [announce_up]) f' bucket (OsPath.basename f') in
    let hu := hc ++ [announce_up; EUpload f' bucket (OsPath.basename f') ru]
                 ++ failure_log "error while uploading %s to S3 bucket" [PyStr f'] ru in
    let announce_rm := ELog INFO "deleting %s" [PyStr f'] None in
    let rr := os_remove E (hu ++ [announce_rm]) f' in
    _process_url E url filename bucket h
    = (Ok tt, hu ++ [announce_rm; ERemove f' rr]
                 ++ failure_log "error while deleting file %s" [PyStr f'] rr).
Proof.
  intros Hd. rewrite (process_url_downloaded E _ _ _ _ _ _ Hd). unfold bind.
  destruct (compress_step_spec E f h1) as (f' & tc & Hc & _).
  exists f', (h1 ++ tc). split; [done|]. rewrite Hc.
  by rewrite upload_step_spec, delete_step_spec.
Qed.

Lemma cleanup_follows_upload_witness :
  exists f' hc,
    compress_step env_upload_refused sample_png
      [downloading (PyStr "http://a/7.png");
       EGet (PyStr "http://a/7.png") true true (Ok (response_of "image/png"));
       EWriteBinary sample_png (response_of "image/png") None] = (Ok f', hc) /\
    let announce_up := ELog INFO "uploading %s to bucket %s " [PyStr f'; PyStr "bucket"] None in
    let ru := upload_file env_upload_refused (hc ++ [announce_up]) f' "bucket"
                (OsPath.basename f') in
    let hu := hc ++ [announce_up; EUpload f' "bucket" (OsPath.basename f') ru]
                 ++ failure_log "error while uploading %s to S3 bucket" [PyStr f'] ru in
    let announce_rm := ELog INFO "deleting %s" [PyStr f'] None in
    let rr := os_remove env_upload_refused (hu ++ [announce_rm]) f' in
    _process_url env_upload_refused (PyStr "http://a/7.png") sample_root "bucket" []
    = (Ok tt, hu ++ [announce_rm; ERemove f' rr]
                 ++ failure_log "error while deleting file %s" [PyStr f'] rr).
Proof.
  exact (cleanup_follows_upload env_upload_refused (PyStr "http://a/7.png") sample_root
           "bucket" [] sample_png
           [downloading (PyStr "http://a/7.png");
            EGet (PyStr "http://a/7.png") true true (Ok (response_of "image/png"));
            EWriteBinary sample_png (response_of "image/png") None]
           eq_refl).
Defined.

(** C2, as the code has it.  In a batch over records whose [mp_name] is a
    string, run with a scratch directory that could be created, every asset
    goes through [asset_history]: a download that fails leaves the record of
    its failure and skips the remaining steps of that asset; after a
    download that succeeded the file is compressed, uploaded and deleted, a
    failure of any of these steps being logged and skipping none of the
    steps after it.  The batch is [batch_history]: the post and then the
    poster of every record, in the order of the list, each followed by its
    progress line, whatever failed before.  So a download is started for
    every asset of every record, every file a download wrote is the object
    of one upload attempt and of one deletion attempt, and the progress
    lines run from [1/total] to [total/total].  Nothing but a failure to
    remove the scratch directory, at the very end, leaves [backup_mpps] as
    an exception. *)
Theorem batch_isolates_failures E mpps bucket h d :
  mkdtemp E (h ++ [batch_start (length mpps)]) = Ok d ->
  Forall named mpps ->
  let total := Z.of_nat (length mpps) in
  (forall url filename h0,
     _process_url E url filename bucket h0
     = (Ok tt, asset_history E url filename bucket h0))
  /\ exists t ro,
       backup_mpps E mpps bucket h
       = (match ro with None => Ok tt | Some e => Raise e end, h ++ t)
       /\ h ++ t = batch_history E d bucket total 0 mpps
                     (h ++ batch_prelude (length mpps) d) ++ [ERmtree d ro]
       /\ downloads_of t = mpps ≫= assets
       /\ removes_of t = uploads_of t
       /\ length (uploads_of t) = length (saved_of t)
       /\ progress_of t = (fun k => (Z.of_nat k, total)) <$> seq 1 (length mpps)
       /\ (mpps <> [] -> last (progress_of t) = Some (total, total)).
Proof.
  intros Hd Hnamed total. split; [intros; apply process_url_history|].
  set (h2 := h ++ batch_prelude (length mpps) d).
  destruct (backup_loop_spec E d bucket total mpps Hnamed 0 h2) as (t & Hloop & Hdl & Hpr).
  pose proof (backup_loop_history E d bucket total mpps Hnamed 0 h2) as Hhist.
  rewrite Hloop in Hhist. injection Hhist as Hhist.
  destruct (batch_history_stores E d bucket total mpps 0 h2) as (t' & Hst & Hrm & Hlen).
  assert (t' = t) as -> by (apply (app_inv_head h2); congruence).
  set (ro := rmtree E (h2 ++ t) d).
  exists (batch_prelude (length mpps) d ++ t ++ [ERmtree d ro]), ro.
  split; [|split; [|split; [|split; [|split; [|split]]]]].
  - unfold backup_mpps, bind at 1, logging at 1, emit, with_TemporaryDirectory.
    fold (batch_start (length mpps)).
    unfold bind at 1, TemporaryDirectory. rewrite Hd.
    unfold bind at 1, logging, emit.
    replace (((h ++ [batch_start (length mpps)]) ++ [EMkdtemp (Ok d)])
               ++ [ELog INFO "created temporary directory %s" [PyStr d] None])
      with h2 by (unfold h2, batch_prelude; by rewrite <- !app_assoc).
    fold total. rewrite Hloop. unfold TemporaryDirectory_cleanup. fold ro.
    unfold h2. rewrite <- !app_assoc. by destruct ro.
  - rewrite <- Hhist. unfold h2. by rewrite <- !app_assoc.
  - rewrite !downloads_of_app, Hdl. by rewrite app_nil_r.
  - rewrite !removes_of_app, !uploads_of_app, Hrm. done.
  - rewrite !uploads_of_app, !saved_of_app, !List.length_app, Hlen. done.
  - rewrite !progress_of_app, Hpr. by rewrite app_nil_r.
  - intros Hne. rewrite !progress_of_app, Hpr, app_nil_r. simpl.
    apply counter_last. by destruct mpps.
Qed.

Lemma three_records_named : Forall named three_records.
Proof. repeat constructor; eexists; reflexivity. Qed.

Lemma batch_isolates_failures_witness :
  exists t ro,
    backup_mpps env_one_download_fails three_records "bucket" []
    = (match ro with None => Ok tt | Some e => Raise e end, [] ++ t)
    /\ [] ++ t = batch_history env_one_download_fails "/tmp/tmpq" "bucket" 3 0 three_records
                   ([] ++ batch_prelude 3 "/tmp/tmpq") ++ [ERmtree "/tmp/tmpq" ro]
    /\ downloads_of t = three_records ≫= assets
    /\ removes_of t = uploads_of t
    /\ length (uploads_of t) = length (saved_of t)
    /\ progress_of t = (fun k => (Z.of_nat k, 3)) <$> seq 1 3
    /\ (three_records <> [] -> last (progress_of t) = Some (3, 3)).
Proof.
  exact (proj2 (batch_isolates_failures env_one_download_fails three_records "bucket" []
                  "/tmp/tmpq" eq_refl three_records_named)).
Defined.

(** C2, as stated, fails: a record whose [mp_name] is null makes the
    announcement of the record fail, and the handler of the record, which
    formats the name again, fail too; the batch ends there, the third record
    is never processed and the counter stops at 1/3.  And without a scratch
    directory no record is processed at all. *)
Lemma null_name_aborts_batch :
  (let out := backup_mpps env_one_download_fails records_with_null_name "bucket" [] in
   out.1 = Raise (AttributeError "object has no attribute 'upper'")
   /\ downloads_of out.2 = [PyStr "http://a/1"; PyStr "http://a/1.png"]
   /\ progress_of out.2 = [(1, 3)])
  /\ (let out := backup_mpps env_no_scratch three_records "bucket" [] in
      out.1 = Raise (OSError "No usable temporary directory found")
      /\ downloads_of out.2 = []
      /\ progress_of out.2 = []).
Proof. vm_compute. repeat split. Qed.

(** ** The compressor and documents *)

(** C7, as the code has it.  For a [.pdf] file, of which the tools leave the
    content alone when they fail ([gs] writes to its output file only, a
    [mv] that fails moves nothing, a log record touches no file): when the
    transform fails, the content at the original path is what it was.  When
    it fails by the exit status of [gs] or [mv] (a [CalledProcessError]),
    the compressor logs the failure at level ERROR and returns the original
    name; when it fails otherwise (a timeout, a tool that cannot be
    started), the error leaves the compressor.  In both cases the
    compression step of the pipeline catches what is left, logs it at level
    ERROR and goes on with the original name. *)
Theorem pdf_failure_keeps_original E
    (file_content : history -> string -> option string) filename root :
  OsPath.splitext filename = (root, ".pdf") ->
  (forall h0 lvl fmt args exc,
     file_content (h0 ++ [ELog lvl fmt args exc]) filename = file_content h0 filename) ->
  (forall h0 o,
     file_content (h0 ++ [ERun (gs_args filename (filename +:+ ".tmp")) o]) filename
     = file_content h0 filename) ->
  (forall h0 o, failed o ->
     file_content (h0 ++ [ERun (mv_args (filename +:+ ".tmp") filename) o]) filename
     = file_content h0 filename) ->
  (forall h e h1,
     compress_pdf E filename h = (Raise e, h1) ->
     file_content h1 filename = file_content h filename
     /\ match e with
        | CalledProcessError _ _ output _ =>
            _compress_file E filename h
            = (Ok filename,
               h1 ++ [ELog ERROR "unable to compress the file %s: %s"
                        [PyStr filename; PyStr output] None])
        | _ => _compress_file E filename h = (Raise e, h1)
        end)
  /\ (forall h e h1,
        compress_pdf E filename (h ++ [trying filename]) = (Raise e, h1) ->
        exists fmt args exc,
          compress_step E filename h = (Ok filename, h1 ++ [ELog ERROR fmt args exc])
          /\ file_content (h1 ++ [ELog ERROR fmt args exc]) filename
             = file_content h filename).
Proof.
  intros Hs Hlog Hgs Hmv.
  assert (Hfile : forall h e h1,
            compress_pdf E filename h = (Raise e, h1) ->
            file_content h1 filename = file_content h filename).
  { intros h e h1 Hrun.
    destruct (compress_pdf_failure E _ _ _ _ Hrun) as [(o & Ho & ->)|(out & err & o & Ho & ->)].
    - by rewrite Hgs.
    - change [ERun ?a ?x; ERun ?b ?y] with ([ERun a x] ++ [ERun b y]).
      by rewrite !app_assoc, Hmv, Hgs. }
  assert (Hc : forall h e h1,
            compress_pdf E filename h = (Raise e, h1) ->
            _compress_file E filename h
            = match e with
              | CalledProcessError _ _ output _ =>
                  (Ok filename,
                   h1 ++ [ELog ERROR "unable to compress the file %s: %s"
                            [PyStr filename; PyStr output] None])
              | _ => (Raise e, h1)
              end).
  { intros h e h1 Hrun. rewrite (compress_file_pdf E _ _ _ Hs), Hrun. by destruct e. }
  split.
  - intros h e h1 Hrun. split; [by eapply Hfile|].
    rewrite (Hc _ _ _ Hrun). by destruct e.
  - intros h e h1 Hrun.
    unfold compress_step, try_except, bind, logging, emit. fold (trying filename).
    rewrite (Hc _ _ _ Hrun).
    assert (Hkept : file_content h1 filename = file_content h filename).
    { rewrite (Hfile _ _ _ Hrun). unfold trying. by rewrite Hlog. }
    destruct e; unfold logging_exception, emit;
      (eexists _, _, _; split; [reflexivity|by rewrite Hlog]).
Qed.

(** The sample file system satisfies what the theorem asks of the tools. *)
Lemma sample_files_snoc h e path :
  sample_files (h ++ [e]) path
  = fs_step (foldl fs_step {[sample_pdf := "%PDF-1.7 original"]} h) e !! path.
Proof. unfold sample_files. by rewrite foldl_snoc. Qed.

Lemma sample_files_log h0 lvl fmt args exc :
  sample_files (h0 ++ [ELog lvl fmt args exc]) sample_pdf = sample_files h0 sample_pdf.
Proof. by rewrite sample_files_snoc. Qed.

Lemma sample_files_gs h0 o :
  sample_files (h0 ++ [ERun (gs_args sample_pdf (sample_pdf +:+ ".tmp")) o]) sample_pdf
  = sample_files h0 sample_pdf.
Proof.
  rewrite sample_files_snoc. destruct o as [rc out err| |e]; [|done..].
  unfold fs_step. destruct (rc =? 0); [|done]. simpl.
  by rewrite lookup_insert_ne.
Qed.

Lemma sample_files_mv h0 o :
  failed o ->
  sample_files (h0 ++ [ERun (mv_args (sample_pdf +:+ ".tmp") sample_pdf) o]) sample_pdf
  = sample_files h0 sample_pdf.
Proof.
  intros Ho. rewrite sample_files_snoc. destruct o as [rc out err| |e]; [|done..].
  unfold fs_step. destruct (Z.eqb_spec rc 0) as [->|_]; [|done].
  by destruct (Ho out err).
Qed.

Lemma pdf_failure_keeps_original_witness :
  sample_files
    [ERun (gs_args sample_pdf (sample_pdf +:+ ".tmp")) (Exited 1 "Unrecoverable error" "")]
    sample_pdf
  = sample_files [] sample_pdf
  /\ _compress_file env_gs_fails sample_pdf []
     = (Ok sample_pdf,
        [ERun (gs_args sample_pdf (sample_pdf +:+ ".tmp")) (Exited 1 "Unrecoverable error" "")]
        ++ [ELog ERROR "unable to compress the file %s: %s"
              [PyStr sample_pdf; PyStr "Unrecoverable error"] None]).
Proof.
  exact (proj1 (pdf_failure_keeps_original env_gs_fails sample_files sample_pdf sample_root
                  eq_refl sample_files_log sample_files_gs sample_files_mv)
           []
           (CalledProcessError 1 (gs_args sample_pdf (sample_pdf +:+ ".tmp"))
              "Unrecoverable error" "")
           [ERun (gs_args sample_pdf (sample_pdf +:+ ".tmp"))
              (Exited 1 "Unrecoverable error" "")]
           eq_refl).
Defined.

(** C7, as stated, fails: when [gs] runs into its timeout the compressor
    does not return the original name, it raises [TimeoutExpired]. *)
Lemma pdf_timeout_escapes_compressor :
  OsPath.splitext sample_pdf = (sample_root, ".pdf")
  /\ _compress_file env_gs_timeout sample_pdf []
     = (Raise (TimeoutExpired (gs_args sample_pdf (sample_pdf +:+ ".tmp"))),
        [ERun (gs_args sample_pdf (sample_pdf +:+ ".tmp")) TimedOut]).
Proof. split; reflexivity. Qed.

(** ** The fetcher *)

(** C3.  When the API serves a sequence of pages, each page but the last
    carrying a [next] that is not null and the last page a null [next], the
    fetcher, given one unit of fuel per page after the first, returns the
    results of all the pages, concatenated in the order of the pages; the
    length of what it returns is the sum of the lengths of the pages'
    results; and it makes one request per page, for the first URL and then
    for the [next] of every page but the last, and none after. *)
Theorem fetch_concatenates_pages E updated_at_after updated_at_before endpoint h pages h' :
  serves E h (PyStr (first_url E updated_at_after updated_at_before endpoint)) pages h' ->
  forall fuel, (length pages <= S fuel)%nat ->
  exists records t,
    retrieve_mpps_by_updated_at_date E fuel updated_at_after updated_at_before endpoint h
    = Some (Ok records, h ++ t)
    /\ h' = h ++ t
    /\ records = concat (RetrieveMppsApiBody.results <$> pages)
    /\ length records = sum_list (length <$> (RetrieveMppsApiBody.results <$> pages))
    /\ length t = length pages
    /\ listing_requests t
       = PyStr (first_url E updated_at_after updated_at_before endpoint)
         :: (RetrieveMppsApiBody.next <$> removelast pages).
Proof.
  intros Hserves fuel Hfuel.
  assert (Hrun :
    retrieve_mpps_by_updated_at_date E fuel updated_at_after updated_at_before endpoint h
    = Some (Ok (concat (RetrieveMppsApiBody.results <$> pages)), h')).
  { unfold retrieve_mpps_by_updated_at_date.
    inversion Hserves as [h0 url res page Hans Hnext|h0 url res page pages' h0' Hans Hnext Hrest];
      subst; rewrite (retrieve_answered E _ _ _ _ Hans).
    - rewrite fetch_loop_done by done. simpl. by rewrite app_nil_r.
    - by rewrite (fetch_loop_serves E _ _ _ _ Hrest fuel page _ eq_refl Hnext)
        by (simpl in Hfuel; lia). }
  destruct (serves_requests E _ _ _ _ Hserves) as (t & -> & Hlen & Hreq).
  exists (concat (RetrieveMppsApiBody.results <$> pages)), t.
  do 3 (split; [done|]). split; [|done]. apply length_concat.
Qed.

Lemma two_pages_served :
  serves env_two_pages [] (PyStr sample_first_url)
    [parsed env_two_pages first_page; parsed env_two_pages second_page]
    (([] ++ [EGet (PyStr sample_first_url) false true (Ok (listing_response first_page))])
       ++ [EGet (PyStr second_url) false true (Ok (listing_response second_page))]).
Proof.
  apply (serves_more env_two_pages [] (PyStr sample_first_url)
           (listing_response first_page) (parsed env_two_pages first_page)).
  - split; [reflexivity|]. split; [reflexivity|]. exists first_page.
    split; [reflexivity|]. vm_compute. reflexivity.
  - vm_compute. discriminate.
  - apply (serves_last env_two_pages _ (PyStr second_url)
             (listing_response second_page) (parsed env_two_pages second_page)).
    + split; [reflexivity|]. split; [reflexivity|]. exists second_page.
      split; [reflexivity|]. vm_compute. reflexivity.
    + vm_compute. reflexivity.
Qed.

Lemma fetch_concatenates_pages_witness :
  exists records t,
    retrieve_mpps_by_updated_at_date env_two_pages 1 "2022-01-22" "2022-05-31" None []
    = Some (Ok records, [] ++ t)
    /\ length records
       = sum_list (length <$> (RetrieveMppsApiBody.results
                                 <$> [parsed env_two_pages first_page;
                                      parsed env_two_pages second_page]))
    /\ length t = 2%nat.
Proof.
  destruct (fetch_concatenates_pages env_two_pages "2022-01-22" "2022-05-31" None []
              [parsed env_two_pages first_page; parsed env_two_pages second_page] _
              two_pages_served 1%nat (le_n 2))
    as (records & t & Hrun & _ & _ & Hsum & Hrequests & _).
  exists records, t. exact (conj Hrun (conj Hsum Hrequests)).
Defined.

(** C5, where the code departs from it.  A record that lacks [id] (or any
    other field that is not one of the five dates the parser reads itself)
    makes the fetch fail as a whole, but with the [TypeError] of the
    dataclass constructor, not with the [ExtraviadosMxApiException] that the
    parser raises for a missing date. *)
Theorem missing_id_raises_TypeError :
  fst <$> retrieve_mpps_by_updated_at_date env_missing_id 3 "2022-01-22" "2022-05-31" None []
  = Some (Raise (TypeError "__init__() missing required argument: 'id'")).
Proof. vm_compute. reflexivity. Qed.
